(** * ai-tracker: a shallow embedding of the fetch / store / report pipeline

    The JSON documents of the tracker (repository dicts, the project table
    persisted in [projects.json]) are modelled as values of [jvalue]; a
    Python dict with string keys at the top level is a [gmap string jvalue]. *)

From Stdlib Require Import ZArith Lia Ascii.
From stdpp Require Import base gmap strings list fin_maps sorting pretty.

Set Warnings "-register-all".
Open Scope string_scope.

(** ** JSON values *)

Inductive jvalue : Type :=
| JNull
| JBool (b : bool)
| JInt (z : Z)
| JStr (s : string)
| JList (l : list jvalue)
| JObj (kvs : list (string * jvalue)).

(** A repository dict ([Dict[str, Any]]). *)
Abbreviation repo := (gmap string jvalue).

(** The project table: full_name -> project dict. *)
Abbreviation store := (gmap string repo).

(** [d.get(k, default)] *)
Definition py_get (d : repo) (k : string) (default : jvalue) : jvalue :=
  match d !! k with Some v => v | None => default end.

(** ** storage/json_store.py *)

Section JsonStore.

(** [str(date.today())] *)
Variable today : string.

(** [existing["history"]] as [update_project] sees it: missing means the
    fresh [[]] it installs, a list is appended to, anything else makes the
    [.append] call raise [AttributeError] ([None] here). *)
Definition stored_history (existing : repo) : option (list jvalue) :=
  match existing !! "history" with
  | None => Some []
  | Some (JList l) => Some l
  | Some _ => None
  end.

(** The history entry appended by [update_project]. *)
Definition history_entry (existing : repo) : jvalue :=
  JObj [("date", JStr today);
        ("stars", py_get existing "stars" (JInt 0));
        ("forks", py_get existing "forks" (JInt 0))].

(** [update_project full_name data] on the table [projects] read by
    [load_projects]; the result is the table written by [save_projects].
    [None] is the [AttributeError] raised by [existing["history"].append]
    when the stored history is not a list. [{**existing, **data}] is
    [data ∪ existing] (stdpp's union is left-biased). *)
Definition update_project (full_name : string) (data : repo) (projects : store)
  : option store :=
  match projects !! full_name with
  | Some existing =>
      match stored_history existing with
      | None => None
      | Some l =>
          let existing' := <["history" := JList (l ++ [history_entry existing])]> existing in
          Some (<[full_name := data ∪ existing']> projects)
      end
  | None => Some (<[full_name := data]> projects)
  end.

End JsonStore.

(** [n] successive calls of [update_project] with the same arguments, each
    on the table the previous one wrote. *)
Definition upsert_times (today full_name : string) (data : repo) (n : nat)
    (projects : store) : option store :=
  Nat.iter n (fun o => o ≫= update_project today full_name data) (Some projects).

(** ** main.py: [run_tracker] *)

(** [repo.get("full_name", "")] as the identity of a record; every adapter
    stores a string there, and an empty one is skipped by [if full_name:]. *)
Definition repo_full_name (r : repo) : string :=
  match r !! "full_name" with Some (JStr s) => s | _ => "" end.

(** [all_projects = trending_projects + search_projects + watchlist_projects]:
    the combined list handed to [json_store.update_project] (and, built the
    same way inside [markdown.generate_daily_report], to the report). *)
Definition all_projects (trending_projects search_projects watchlist_projects : list repo)
  : list repo :=
  trending_projects ++ search_projects ++ watchlist_projects.

(** Entries of a list of records carrying the identity [x]. *)
Definition count_identity (x : string) (l : list repo) : nat :=
  length (filter (fun r => repo_full_name r = x) l).

(** The persistence loop of [run_tracker]:
    [for repo in all_projects: if full_name: json_store.update_project(...)].
    Each [update_project] loads the table and writes it back
    ([save_projects]); the result is the table on disk at the end, the
    number of whole-table writes, and whether an exception escaped. *)
Fixpoint save_all (today : string) (projects : store) (ps : list repo)
  : store * nat * bool :=
  match ps with
  | [] => (projects, 0, false)
  | r :: ps' =>
      let full_name := repo_full_name r in
      if String.eqb full_name "" then save_all today projects ps'
      else match update_project today full_name r projects with
           | None => (projects, 0, true)
           | Some projects' =>
               let '(final, writes, failed) := save_all today projects' ps' in
               (final, S writes, failed)
           end
  end.

(** Every stored record has a history [update_project] can append to. *)
Definition store_ok (projects : store) : Prop :=
  map_Forall (fun _ r => is_Some (stored_history r)) projects.

(** Number of history entries of the record stored under [x]. *)
Definition hist_len (projects : store) (x : string) : option nat :=
  match projects !! x with
  | Some r => match stored_history r with Some l => Some (length l) | None => None end
  | None => None
  end.

(** ** fetcher/github_client.py: the cache and [search_repositories] *)

Module GitHubClient.

(** Cache keys [(endpoint, params)]. *)
Abbreviation cache_key := (string * string)%type.

(** The part of a [GitHubClient] the search path uses: [self._cache]
    (entries [(cached_time, value)], times in microseconds) and
    [self._cache_ttl]. Only the ["search"] entries are modelled: they hold
    the repository lists [search_repositories] stores; the ["repo"] entries
    of [get_repository] sit under other keys and never meet them. *)
Record client := {
  cache : gmap cache_key (Z * list repo);
  cache_ttl : Z
}.

Definition with_cache (c : client) (m : gmap cache_key (Z * list repo)) : client :=
  {| cache := m; cache_ttl := cache_ttl c |}.

(** [_get_cached(key)] at time [now]; the stale entry is deleted. *)
Definition _get_cached (now : Z) (key : cache_key) (c : client) : option (list repo) * client :=
  match cache c !! key with
  | Some (cached_time, value) =>
      if Z.ltb (now - cached_time) (cache_ttl c) then (Some value, c)
      else (None, with_cache c (delete key (cache c)))
  | None => (None, c)
  end.

(** [_set_cached(key, value)] at time [now]. *)
Definition _set_cached (now : Z) (key : cache_key) (value : list repo) (c : client) : client :=
  with_cache c (<[key := (now, value)]> (cache c)).

(** What the provider does with the request made inside the [try] block
    ([self._client.search_repositories(...)], iterated over [[:per_page]]
    and passed through [_extract_repo_data]): the extracted list, a
    [RateLimitExceededException], or another [GithubException]. *)
Inductive api_result :=
| ApiOk (repos : list repo)
| ApiRateLimited
| ApiError.

(** Observable side effects: an underlying request, a [time.sleep]. *)
Inductive event :=
| Request (key : cache_key)
| Sleep (seconds : Z).

(** [_handle_rate_limit]: logs and sleeps 60 seconds. *)
Definition _handle_rate_limit : list event := [Sleep 60].

(** [cache_key = ("search", f"{query}-{sort}-{order}-{per_page}")] *)
Definition search_key (query sort order : string) (per_page : Z) : cache_key :=
  ("search", query +:+ "-" +:+ sort +:+ "-" +:+ order +:+ "-" +:+ pretty per_page).

(** [search_repositories(query, sort, order, per_page)]: [now_get] is the
    clock read by [_get_cached], [now_set] the one read by [_set_cached]
    after the request, [api] the provider's answer to the request. *)
Definition search_repositories (api : api_result) (now_get now_set : Z)
    (query sort order : string) (per_page : Z) (c : client)
  : list repo * client * list event :=
  let key := search_key query sort order per_page in
  match _get_cached now_get key c with
  | (Some cached, c1) => (cached, c1, [])
  | (None, c1) =>
      match api with
      | ApiOk repos => (repos, _set_cached now_set key repos c1, [Request key])
      | ApiRateLimited => ([], c1, Request key :: _handle_rate_limit)
      | ApiError => ([], c1, [Request key])
      end
  end.

Definition is_sleep (e : event) : bool :=
  match e with Sleep _ => true | Request _ => false end.

Definition is_request (e : event) : bool :=
  match e with Request _ => true | Sleep _ => false end.

End GitHubClient.

(** ** fetcher/github_client.py: [get_repository] *)

Module RepoClient.
Import GitHubClient.

(** The ["repo"] entries of [self._cache], which hold the dicts
    [_extract_repo_data] returns, and [self._cache_ttl]. *)
Record client := {
  cache : gmap cache_key (Z * repo);
  cache_ttl : Z
}.

Definition with_cache (c : client) (m : gmap cache_key (Z * repo)) : client :=
  {| cache := m; cache_ttl := cache_ttl c |}.

(** [_get_cached(key)] at time [now]; the stale entry is deleted. *)
Definition _get_cached (now : Z) (key : cache_key) (c : client) : option repo * client :=
  match cache c !! key with
  | Some (cached_time, value) =>
      if Z.ltb (now - cached_time) (cache_ttl c) then (Some value, c)
      else (None, with_cache c (delete key (cache c)))
  | None => (None, c)
  end.

(** [_set_cached(key, value)] at time [now]. *)
Definition _set_cached (now : Z) (key : cache_key) (value : repo) (c : client) : client :=
  with_cache c (<[key := (now, value)]> (cache c)).

(** What the provider does inside the [try] block:
    [self._client.get_repo(full_name)], then [_extract_repo_data(repo)],
    which makes a second request, [repo.get_topics()], when [repo.language]
    is set. [RepoOk data]: both succeed and [data] is the extracted dict.
    [RepoRateLimited in_topics] and [RepoError in_topics]: a
    [RateLimitExceededException] or another [GithubException], raised by
    [get_repo] ([in_topics = false]) or by [get_topics] after [get_repo]
    returned a repository with a language ([in_topics = true]). *)
Inductive repo_result :=
| RepoOk (data : repo)
| RepoRateLimited (in_topics : bool)
| RepoError (in_topics : bool).

(** [if repo.language]: the language is a [str] or [None], and the
    extracted dict holds it under ["language"]. *)
Definition language_set (data : repo) : bool :=
  match data !! "language" with
  | Some (JStr l) => negb (String.eqb l "")
  | _ => false
  end.

(** The requests made inside the [try] block, named by endpoint and
    repository: [get_repo], then [get_topics] if it was reached. *)
Definition api_requests (api : repo_result) (full_name : string) : list event :=
  let topics (b : bool) : list event := if b then [Request ("topics", full_name)] else [] in
  match api with
  | RepoOk data => Request ("repo", full_name) :: topics (language_set data)
  | RepoRateLimited in_topics => Request ("repo", full_name) :: topics in_topics
  | RepoError in_topics => Request ("repo", full_name) :: topics in_topics
  end.

(** [get_repository(full_name)]: [now_get] is the clock read by
    [_get_cached], [now_set] the one read by [_set_cached]. A cached dict
    is never [None], so [if cached is not None] returns every hit. Both
    [except] branches log and return [None]; neither sleeps. *)
Definition get_repository (api : repo_result) (now_get now_set : Z) (full_name : string)
    (c : client) : option repo * client * list event :=
  let key := ("repo", full_name) in
  match _get_cached now_get key c with
  | (Some cached, c1) => (Some cached, c1, [])
  | (None, c1) =>
      match api with
      | RepoOk data => (Some data, _set_cached now_set key data c1, api_requests api full_name)
      | RepoRateLimited _ => (None, c1, api_requests api full_name)
      | RepoError _ => (None, c1, api_requests api full_name)
      end
  end.

End RepoClient.

(** ** fetcher/watchlist.py *)

(** A Python call either returns or raises. *)
Inductive py (A : Type) : Type :=
| Ret (a : A)
| Raise.
Arguments Ret {A} a.
Arguments Raise {A}.

Section Watchlist.

(** The [GitHubClient] as the watchlist sees it: a state [S] (its cache,
    the provider, the clock) threaded through the calls it makes. An
    exception that escapes a call (whatever its class) is [Raise];
    [get_repository] returns [None] for not-found and rate-limited. *)
Variable S : Type.
Variable get_repository : S -> string -> S * py (option repo).
Variable get_recent_commits : S -> string -> S * py (list jvalue).
Variable get_contributors : S -> string -> S * py (list jvalue).
(** [datetime.now().isoformat()] *)
Variable now_iso : S -> string.

(** The body of the [try] block for one [full_name]: [Ret (Some r)] is an
    appended record, [Ret None] the [continue] after a [None] lookup,
    [Raise] an exception caught by [except Exception]. *)
Definition watch_item (s : S) (full_name : string) : S * py (option repo) :=
  match get_repository s full_name with
  | (s1, Raise) => (s1, Raise)
  | (s1, Ret None) => (s1, Ret None)
  | (s1, Ret (Some repo_data)) =>
      match get_recent_commits s1 full_name with
      | (s2, Raise) => (s2, Raise)
      | (s2, Ret commits) =>
          match get_contributors s2 full_name with
          | (s3, Raise) => (s3, Raise)
          | (s3, Ret contributors) =>
              (s3, Ret (Some (<["fetched_at" := JStr (now_iso s3)]>
                               (<["contributors" := JList contributors]>
                                 (<["recent_commits" := JList commits]>
                                   (<["source" := JStr "watchlist"]> repo_data))))))
          end
      end
  end.

(** [fetch_watchlist(client)] over [config.WATCHLIST = watchlist]. *)
Fixpoint fetch_watchlist (s : S) (watchlist : list string) : S * list repo :=
  match watchlist with
  | [] => (s, [])
  | full_name :: rest =>
      let '(s1, item) := watch_item s full_name in
      let '(s2, results) := fetch_watchlist s1 rest in
      (s2, match item with Ret (Some r) => r :: results | _ => results end)
  end.

(** The outcome of each identity's [try] block, in order. *)
Fixpoint item_outcomes (s : S) (watchlist : list string) : list (string * py (option repo)) :=
  match watchlist with
  | [] => []
  | full_name :: rest =>
      let '(s1, item) := watch_item s full_name in
      (full_name, item) :: item_outcomes s1 rest
  end.

(** Python's [int] arithmetic on a JSON value ([bool] is an [int]);
    [None] is the [TypeError] of [-] on anything else. *)
Definition py_int (v : jvalue) : option Z :=
  match v with
  | JInt z => Some z
  | JBool b => Some (if b then 1%Z else 0%Z)
  | _ => None
  end.

(** [star_delta = current_stars - prev_stars] for one fetched record. *)
Definition star_delta (previous_data : gmap string repo) (r : repo) : option Z :=
  let prev := match previous_data !! repo_full_name r with Some p => p | None => ∅ end in
  match py_int (py_get r "stars" (JInt 0)), py_int (py_get prev "stars" (JInt 0)) with
  | Some current_stars, Some prev_stars => Some (current_stars - prev_stars)%Z
  | _, _ => None
  end.

(** The loop of [get_watchlist_changes] before sorting. *)
Fixpoint collect_changes (previous_data : gmap string repo) (current : list repo)
  : option (list repo) :=
  match current with
  | [] => Some []
  | r :: rest =>
      match star_delta previous_data r with
      | None => None
      | Some d =>
          match collect_changes previous_data rest with
          | None => None
          | Some cs => Some (if Z.ltb 0 d then <["stars_delta" := JInt d]> r :: cs else cs)
          end
      end
  end.

(** [x.get("stars_delta", 0)] as a sort key. *)
Definition delta_key (r : repo) : Z :=
  match py_get r "stars_delta" (JInt 0) with JInt z => z | _ => 0%Z end.

(** Stable insertion placing [x] after the elements whose key is at least
    its own: [list.sort(key=..., reverse=True)] keeps equal keys in order. *)
Fixpoint insert_desc (x : repo) (l : list repo) : list repo :=
  match l with
  | [] => [x]
  | y :: ys => if Z.leb (delta_key x) (delta_key y) then y :: insert_desc x ys else x :: l
  end.

Definition sort_desc (l : list repo) : list repo :=
  fold_left (fun acc x => insert_desc x acc) l [].

(** [get_watchlist_changes(client, previous_data)]; [None] is a
    [TypeError] escaping the call. *)
Definition get_watchlist_changes (s : S) (watchlist : list string)
    (previous_data : gmap string repo) : S * option (list repo) :=
  let '(s1, current_data) := fetch_watchlist s watchlist in
  (s1, match collect_changes previous_data current_data with
       | Some changes => Some (sort_desc changes)
       | None => None
       end).

End Watchlist.

Arguments watch_item {S} _ _ _ _ _ _.
Arguments fetch_watchlist {S} _ _ _ _ _ _.
Arguments item_outcomes {S} _ _ _ _ _ _.
Arguments get_watchlist_changes {S} _ _ _ _ _ _ _.

(** A provider for examples: [repos] answers lookups, names in [failing]
    make the call raise, other names are not found; the state is unused. *)
Definition table_get_repository (repos : gmap string repo) (failing : list string)
    (s : unit) (full_name : string) : unit * py (option repo) :=
  if decide (full_name ∈ failing) then (s, Raise) else (s, Ret (repos !! full_name)).

Definition no_list (s : unit) (full_name : string) : unit * py (list jvalue) := (s, Ret []).

Definition fixed_clock (s : unit) : string := "2026-10-16T00:00:00".

(** ** fetcher/trending.py: [_parse_star_count] *)

Module PyStr.
Local Open Scope list_scope.

(** Python [str] operations on ASCII text. *)

Definition ascii_lower (c : Ascii.ascii) : Ascii.ascii :=
  let n := Ascii.nat_of_ascii c in
  if (65 <=? n)%nat && (n <=? 90)%nat then Ascii.ascii_of_nat (n + 32) else c.

(** [str.lower()] *)
Definition lower (s : string) : string :=
  String.string_of_list_ascii (map ascii_lower (String.list_ascii_of_string s)).

Fixpoint starts_with (pre l : list Ascii.ascii) : bool :=
  match pre, l with
  | [], _ => true
  | c :: pre', d :: l' => Ascii.eqb c d && starts_with pre' l'
  | _ :: _, [] => false
  end.

(** [str.replace(old, new)] for a non-empty [old]: occurrences replaced
    left to right without overlap; [fuel] is the length of the text. *)
Fixpoint replace_fuel (fuel : nat) (old new l : list Ascii.ascii) : list Ascii.ascii :=
  match fuel with
  | O => l
  | S fuel' =>
      match l with
      | [] => []
      | c :: l' =>
          if starts_with old l
          then new ++ replace_fuel fuel' old new (drop (length old) l)
          else c :: replace_fuel fuel' old new l'
      end
  end.

Definition replace (old new s : string) : string :=
  let l := String.list_ascii_of_string s in
  String.string_of_list_ascii
    (replace_fuel (length l) (String.list_ascii_of_string old) (String.list_ascii_of_string new) l).

End PyStr.

Module PyFloat.
Local Open Scope list_scope.
Local Open Scope Z_scope.

(** A Python [float]: a finite value [(-1)^neg * m * 2^u] with the
    significand [m] already rounded to binary64, an infinity, or a NaN. *)
Inductive float :=
| Finite (neg : bool) (m : Z) (u : Z)
| Inf (neg : bool)
| NaN.

(** Exceptions of [float()] and [int()]. *)
Inductive exn := ValueError | OverflowError.

Definition is_digit (c : Ascii.ascii) : bool :=
  let n := Ascii.nat_of_ascii c in ((48 <=? n)%nat && (n <=? 57)%nat).

Definition digit_value (c : Ascii.ascii) : Z := Z.of_nat (Ascii.nat_of_ascii c) - 48.

(** Whitespace [float()] strips: [Py_UNICODE_ISSPACE] on ASCII. *)
Definition is_space (c : Ascii.ascii) : bool :=
  let n := Ascii.nat_of_ascii c in
  ((9 <=? n)%nat && (n <=? 13)%nat) || ((28 <=? n)%nat && (n <=? 32)%nat).

Fixpoint strip_left (l : list Ascii.ascii) : list Ascii.ascii :=
  match l with c :: l' => if is_space c then strip_left l' else l | [] => [] end.

Definition strip (l : list Ascii.ascii) : list Ascii.ascii := rev (strip_left (rev (strip_left l))).

(** After a first digit: more digits, a single [_] only between digits.
    Returns the value, the number of digits and the rest. *)
Fixpoint digits_tail (l : list Ascii.ascii) (acc : Z) (n : nat) : Z * nat * list Ascii.ascii :=
  match l with
  | c :: l' =>
      if is_digit c then digits_tail l' (acc * 10 + digit_value c) (S n)
      else if Ascii.eqb c "_"%char then
        match l' with
        | d :: l'' => if is_digit d then digits_tail l'' (acc * 10 + digit_value d) (S n)
                      else (acc, n, l)
        | [] => (acc, n, l)
        end
      else (acc, n, l)
  | [] => (acc, n, [])
  end.

(** [digitpart ::= digit (["_"] digit)*] *)
Definition digitpart (l : list Ascii.ascii) : option (Z * nat * list Ascii.ascii) :=
  match l with
  | c :: l' => if is_digit c then Some (digits_tail l' (digit_value c) 1) else None
  | [] => None
  end.

(** [exponent ::= ("e" | "E") [sign] digitpart]; an empty rest is no exponent. *)
Definition exponent (l : list Ascii.ascii) : option Z :=
  match l with
  | [] => Some 0
  | c :: l' =>
      if Ascii.eqb (PyStr.ascii_lower c) "e"%char then
        let '(neg, l'') := match l' with
                           | d :: l'' => if Ascii.eqb d "-"%char then (true, l'')
                                         else if Ascii.eqb d "+"%char then (false, l'')
                                         else (false, l')
                           | [] => (false, l')
                           end in
        match digitpart l'' with
        | Some (e, _, []) => Some (if neg then - e else e)
        | _ => None
        end
      else None
  end.

(** [numeric ::= digitpart ["." [digitpart]] [exponent] | "." digitpart [exponent]]:
    the exact value [m * 10^e]. *)
Definition decimal (l : list Ascii.ascii) : option (Z * Z) :=
  let frac (ip : Z) (r : list Ascii.ascii) : option (Z * Z) :=
    match r with
    | c :: r' =>
        if Ascii.eqb c "."%char then
          match digitpart r' with
          | Some (fp, fn, r'') =>
              match exponent r'' with
              | Some e => Some (ip * 10 ^ Z.of_nat fn + fp, e - Z.of_nat fn)
              | None => None
              end
          | None => match exponent r' with Some e => Some (ip, e) | None => None end
          end
        else match exponent r with Some e => Some (ip, e) | None => None end
    | [] => Some (ip, 0)
    end in
  match digitpart l with
  | Some (ip, _, r) => frac ip r
  | None =>
      match l with
      | c :: l' => if Ascii.eqb c "."%char then
                     match digitpart l' with
                     | Some (fp, fn, r'') =>
                         match exponent r'' with
                         | Some e => Some (fp, e - Z.of_nat fn)
                         | None => None
                         end
                     | None => None
                     end
                   else None
      | [] => None
      end
  end.

(** Round half to even of [a / b], for [0 <= a] and [0 < b]. *)
Definition round_half_even (a b : Z) : Z :=
  let q := a / b in
  match Z.compare (2 * (a mod b)) b with
  | Lt => q
  | Gt => q + 1
  | Eq => if Z.even q then q else q + 1
  end.

(** The binary64 value nearest to [N / D] ([0 <= N], [0 < D]), ties to
    even, as CPython's correctly rounded [float()] computes it: [k] is
    [floor(log2(N / D))], [2^u] the unit in the last place (subnormals
    below [2^-1022]); a result of [2^1024] or more is an infinity. *)
Definition to_binary64 (neg : bool) (N D : Z) : float :=
  if N =? 0 then Finite neg 0 0 else
  let k0 := Z.log2 N - Z.log2 D in
  let k := if (if 0 <=? k0 then D * 2 ^ k0 <=? N else D <=? N * 2 ^ (- k0))
           then k0 else k0 - 1 in
  let u := Z.max (k - 52) (-1074) in
  let m := if 0 <=? u then round_half_even N (D * 2 ^ u)
           else round_half_even (N * 2 ^ (- u)) D in
  if (0 <=? u) && (2 ^ 1024 <=? m * 2 ^ u) then Inf neg else Finite neg m u.

(** [float(s)] on a [str]; [None] is its [ValueError]. *)
Definition py_float (s : string) : option float :=
  let l := strip (String.list_ascii_of_string s) in
  let '(neg, body) := match l with
                      | c :: l' => if Ascii.eqb c "-"%char then (true, l')
                                   else if Ascii.eqb c "+"%char then (false, l')
                                   else (false, l)
                      | [] => (false, [])
                      end in
  let word := String.string_of_list_ascii (map PyStr.ascii_lower body) in
  if String.eqb word "inf" || String.eqb word "infinity" then Some (Inf neg)
  else if String.eqb word "nan" then Some NaN
  else match decimal body with
       | Some (m, e) =>
           Some (if 0 <=? e then to_binary64 neg (m * 10 ^ e) 1
                 else to_binary64 neg m (10 ^ (- e)))
       | None => None
       end.

(** [int(x)] on a [float]: truncation toward zero. *)
Definition py_int_of_float (f : float) : exn + Z :=
  match f with
  | Finite neg m u =>
      let t := if 0 <=? u then m * 2 ^ u else Z.shiftr m (- u) in
      inr (if neg then - t else t)
  | Inf _ => inl OverflowError
  | NaN => inl ValueError
  end.

End PyFloat.

(** [text.lower().replace(",", "").replace(" ", "").replace("stars", "").replace("k", "000")] *)
Definition clean_star_text (text : string) : string :=
  PyStr.replace "k" "000"
    (PyStr.replace "stars" ""
      (PyStr.replace " " "" (PyStr.replace "," "" (PyStr.lower text)))).

(** [_parse_star_count(text)]: [Raise] is an exception escaping the
    [except ValueError] handler. *)
Definition _parse_star_count (text : string) : py Z :=
  match PyFloat.py_float (clean_star_text text) with
  | None => Ret 0%Z
  | Some f =>
      match PyFloat.py_int_of_float f with
      | inr n => Ret n
      | inl PyFloat.ValueError => Ret 0%Z
      | inl PyFloat.OverflowError => Raise
      end
  end.

(** One [article.box-row] as the HTML collaborator reads it: the [href] of
    its [h2 a] link ([None]: no link; a link without [href] gives [""]),
    the stripped text of its [p] (or [""]), of its language element, and of
    its stargazers link. *)
Record raw_article := {
  link_href : option string;
  description_text : string;
  language_text : option string;
  stars_elem_text : option string
}.

(** [full_name.lstrip("/")] *)
Fixpoint lstrip_slash (l : list Ascii.ascii) : list Ascii.ascii :=
  match l with c :: l' => if Ascii.eqb c "/"%char then lstrip_slash l' else l | [] => [] end.

(** [full_name.split("/")[-1]] *)
Fixpoint last_segment (l acc : list Ascii.ascii) : list Ascii.ascii :=
  match l with
  | [] => acc
  | c :: l' => if Ascii.eqb c "/"%char then last_segment l' [] else last_segment l' (acc ++ [c])%list
  end.

(** The body of the loop of [_parse_trending_page] for one article:
    [Ret None] is the [continue] for a missing link, [Raise] an exception
    that the [except Exception] handler turns into a skipped article. *)
Definition parse_article (fetched_at : string) (a : raw_article) : py (option repo) :=
  match link_href a with
  | None => Ret None
  | Some href =>
      let fn := lstrip_slash (String.list_ascii_of_string href) in
      let full_name := String.string_of_list_ascii fn in
      let name := String.string_of_list_ascii (last_segment fn []) in
      let stars_text := match stars_elem_text a with Some t => t | None => "0" end in
      match _parse_star_count stars_text with
      | Raise => Raise
      | Ret stars =>
          Ret (Some (list_to_map
            [("full_name", JStr full_name); ("name", JStr name);
             ("description", JStr (description_text a)); ("stars", JInt stars);
             ("stars_delta", JInt stars);
             ("language", match language_text a with Some t => JStr t | None => JNull end);
             ("topics", JList []); ("source", JStr "trending"); ("fetched_at", JStr fetched_at)]))
      end
  end.

(** [_parse_trending_page(html)] over the articles of the page. *)
Definition _parse_trending_page (fetched_at : string) (articles : list raw_article) : list repo :=
  omap (fun a => match parse_article fetched_at a with Ret (Some r) => Some r | _ => None end)
       articles.

(** ** Sorting by a numeric key: [sorted(..., key=..., reverse=True)] *)

Section KeySort.
Context {A : Type}.
Variable key : A -> Z.

(** Stable insertion after the elements whose key is at least [key x]. *)
Fixpoint insert_by_key (x : A) (l : list A) : list A :=
  match l with
  | [] => [x]
  | y :: ys => if Z.leb (key x) (key y) then y :: insert_by_key x ys else x :: l
  end.

Definition sort_by_key_desc (l : list A) : list A :=
  fold_left (fun acc x => insert_by_key x acc) l [].

(** The order [reverse=True] sorts into: a key at least the next one. *)
Definition desc_by (a b : A) : Prop := (key b <= key a)%Z.

End KeySort.

(** [x.get("stars", 0)] as a number; [None] for a value [<] cannot
    compare with an [int]. *)
Definition stars_key (r : repo) : option Z := py_int (py_get r "stars" (JInt 0)).

Definition stars_of (r : repo) : Z := match stars_key r with Some z => z | None => 0%Z end.

(** [sort(key=lambda x: x.get("stars", 0), reverse=True)]: a list of two
    or more records compares keys, which raises [TypeError] ([Raise]) on a
    non-numeric one; the producers of these lists store an [int] there. *)
Definition sort_by_stars (l : list repo) : py (list repo) :=
  match l with
  | [] | [_] => Ret l
  | _ => if forallb (fun r => match stars_key r with Some _ => true | None => false end) l
         then Ret (sort_by_key_desc stars_of l) else Raise
  end.

(** ** fetcher/search.py: [search_ai_projects] *)

(** Hashable keys of a Python [set], up to Python equality ([True == 1]). *)
Inductive hkey := HNull | HInt (z : Z) | HStr (s : string).

Global Instance hkey_eq_dec : EqDecision hkey.
Proof. solve_decision. Defined.

(** [hash] of a JSON value: [None] is the [TypeError] of a [list] or [dict]. *)
Definition py_hash_key (v : jvalue) : option hkey :=
  match v with
  | JNull => Some HNull
  | JBool b => Some (HInt (if b then 1 else 0)%Z)
  | JInt z => Some (HInt z)
  | JStr s => Some (HStr s)
  | JList _ | JObj _ => None
  end.

(** The set key of a record: [repo.get("full_name", "")]. *)
Definition full_name_key (r : repo) : option hkey :=
  py_hash_key (py_get r "full_name" (JStr "")).

Section Search.

Variable S : Type.
(** [client.search_repositories(query=..., sort="stars", order="desc",
    per_page=...)]; [Raise] is an exception escaping it. *)
Variable search_repositories : S -> string -> Z -> S * py (list repo).
(** [datetime.now().isoformat()], reading the clock. *)
Variable clock : S -> S * string.

(** The inner loop over one keyword's results. [seen] and [all_results]
    are mutated in place, so what was added before an exception stays;
    the [bool] tells whether an exception ended the loop. *)
Fixpoint tag_results (keyword : string) (s : S) (seen : list hkey) (all_results : list repo)
    (results : list repo) : S * list hkey * list repo * bool :=
  match results with
  | [] => (s, seen, all_results, false)
  | repo :: rest =>
      match full_name_key repo with
      | None => (s, seen, all_results, true)
      | Some k =>
          if decide (k ∈ seen) then tag_results keyword s seen all_results rest
          else
            let '(s1, now) := clock s in
            let repo' := <["fetched_at" := JStr now]>
                           (<["source_keyword" := JStr keyword]>
                             (<["source" := JStr "search"]> repo)) in
            tag_results keyword s1 (k :: seen) (all_results ++ [repo']) rest
      end
  end.

(** The loop over [config.AI_KEYWORDS]: the [try] block of a keyword ends
    at its first exception, which [except Exception] swallows. *)
Fixpoint search_keywords (per_keyword : Z) (s : S) (seen : list hkey)
    (all_results : list repo) (keywords : list string) : S * list hkey * list repo :=
  match keywords with
  | [] => (s, seen, all_results)
  | keyword :: rest =>
      let query := keyword +:+ " language:python OR language:typescript" in
      match search_repositories s query per_keyword with
      | (s1, Raise) => search_keywords per_keyword s1 seen all_results rest
      | (s1, Ret results) =>
          let '(s2, seen', all_results', _) := tag_results keyword s1 seen all_results results in
          search_keywords per_keyword s2 seen' all_results' rest
      end
  end.

(** [search_ai_projects(client, per_keyword)]; the final sort is outside
    the [try], so its [TypeError] escapes. *)
Definition search_ai_projects (per_keyword : Z) (s : S) (keywords : list string)
  : S * py (list repo) :=
  let '(s1, _, all_results) := search_keywords per_keyword s [] [] keywords in
  (s1, sort_by_stars all_results).

End Search.

Arguments tag_results {S} _ _ _ _ _ _.
Arguments search_keywords {S} _ _ _ _ _ _ _.
Arguments search_ai_projects {S} _ _ _ _ _.

(** What [seen] and [all_results] keep through the loops: [seen] holds
    exactly the identities of [all_results], without repetition, and every
    collected record is tagged by the pass. *)
Definition search_inv (keywords : list string) (seen : list hkey) (all_results : list repo) : Prop :=
  seen ≡ₚ omap full_name_key all_results /\ NoDup seen /\
  Forall (fun r => is_Some (full_name_key r) /\ r !! "source" = Some (JStr "search") /\
                   exists kw, kw ∈ keywords /\ r !! "source_keyword" = Some (JStr kw))
         all_results.

(** ** fetcher/trending.py: [_filter_ai_projects], [fetch_ai_trending] *)

(** [config.AI_KEYWORDS] *)
Definition AI_KEYWORDS : list string :=
  ["llm"; "large language model"; "gpt"; "transformer"; "diffusion";
   "stable diffusion"; "AI"; "artificial intelligence"; "machine learning";
   "deep learning"; "neural network"; "chatbot"; "langchain"; "llama";
   "mistral"; "claude"; "gemini"].

(** [config.TRENDING_LANGUAGES] *)
Definition TRENDING_LANGUAGES : list string :=
  ["Python"; "TypeScript"; "JavaScript"; "Jupyter Notebook"; "Rust"; "Go"].

(** [str(value)] of a scalar JSON value; the [repr] of a list or a dict
    is not modelled ([None]). *)
Definition py_str (v : jvalue) : option string :=
  match v with
  | JNull => Some "None"
  | JBool b => Some (if b then "True" else "False")
  | JInt z => Some (pretty z)
  | JStr s => Some s
  | JList _ | JObj _ => None
  end.

(** [needle in hay] on strings. *)
Fixpoint contains (needle hay : list Ascii.ascii) : bool :=
  PyStr.starts_with needle hay ||
  match hay with [] => false | _ :: hay' => contains needle hay' end.

Definition str_contains (needle hay : string) : bool :=
  contains (String.list_ascii_of_string needle) (String.list_ascii_of_string hay).

(** [f"{repo.get('name', '')} {repo.get('description', '')}".lower()] *)
Definition ai_text (r : repo) : option string :=
  match py_str (py_get r "name" (JStr "")), py_str (py_get r "description" (JStr "")) with
  | Some n, Some d => Some (PyStr.lower (n +:+ " " +:+ d))
  | _, _ => None
  end.

(** [ai_keywords = [kw.lower() for kw in config.AI_KEYWORDS]] *)
Definition ai_keywords : list string := map PyStr.lower AI_KEYWORDS.

(** [_filter_ai_projects(repos)] with the lowered keywords [kws]. *)
Fixpoint filter_ai (kws : list string) (repos : list repo) : option (list repo) :=
  match repos with
  | [] => Some []
  | r :: rest =>
      match ai_text r, filter_ai kws rest with
      | Some text, Some filtered =>
          Some (if existsb (fun kw => str_contains kw text) kws then r :: filtered else filtered)
      | _, _ => None
      end
  end.

Definition _filter_ai_projects (repos : list repo) : option (list repo) :=
  filter_ai ai_keywords repos.

Section TrendingFetch.
Variable S : Type.
(** [fetch_trending(language=lang)]: the parsed page, or [[]] when the
    request failed. *)
Variable fetch_trending : S -> string -> S * list repo.

(** The loop of [fetch_ai_trending] over the languages [langs]. *)
Fixpoint fetch_ai_trending_from (s : S) (all_trending : list repo) (langs : list string)
  : S * option (list repo) :=
  match langs with
  | [] => (s, Some all_trending)
  | lang :: rest =>
      let '(s1, trending) := fetch_trending s lang in
      match _filter_ai_projects trending with
      | Some ai_trending => fetch_ai_trending_from s1 (all_trending ++ ai_trending) rest
      | None => (s1, None)
      end
  end.

Definition fetch_ai_trending (s : S) : S * option (list repo) :=
  fetch_ai_trending_from s [] TRENDING_LANGUAGES.

End TrendingFetch.

Arguments fetch_ai_trending_from {S} _ _ _ _.
Arguments fetch_ai_trending {S} _ _.

(** ** report/markdown.py *)

(** The top section of [generate_daily_report]:
    [sorted(all_projects, key=lambda x: x.get("stars", 0), reverse=True)[:10]]
    with [all_projects = trending + search_results + watchlist]. *)
Definition top_projects (trending search_results watchlist : list repo) : py (list repo) :=
  match sort_by_stars (trending ++ search_results ++ watchlist)%list with
  | Ret sorted_projects => Ret (take 10 sorted_projects)
  | Raise => Raise
  end.

(** [p.get("language", "Unknown")] as a dict key. *)
Definition lang_key (p : repo) : option hkey :=
  py_hash_key (py_get p "language" (JStr "Unknown")).

(** [languages.get(lang, 0)] on a dict kept as its items in insertion order. *)
Fixpoint alist_get (k : hkey) (l : list (hkey * Z)) : option Z :=
  match l with
  | [] => None
  | (k', n) :: l' => if decide (k = k') then Some n else alist_get k l'
  end.

(** [languages[lang] = languages.get(lang, 0) + 1]: an existing key keeps
    its place, a new one goes last. *)
Fixpoint lang_incr (k : hkey) (l : list (hkey * Z)) : list (hkey * Z) :=
  match l with
  | [] => [(k, 1%Z)]
  | (k', n) :: l' => if decide (k = k') then (k', (n + 1)%Z) :: l' else (k', n) :: lang_incr k l'
  end.

(** The loop filling [languages]; [None] is the [TypeError] of an
    unhashable language. *)
Fixpoint count_languages (languages : list (hkey * Z)) (ps : list repo)
  : option (list (hkey * Z)) :=
  match ps with
  | [] => Some languages
  | p :: ps' =>
      match lang_key p with
      | Some k => count_languages (lang_incr k languages) ps'
      | None => None
      end
  end.

(** [sum(...)] of [int] values; [None] is the [TypeError] of another one. *)
Fixpoint py_sum (acc : Z) (vs : list jvalue) : option Z :=
  match vs with
  | [] => Some acc
  | v :: vs' => match py_int v with Some z => py_sum (acc + z)%Z vs' | None => None end
  end.

Record summary := {
  total_projects : Z;
  total_stars : Z;
  total_forks : Z;
  trending_count : Z;
  search_count : Z;
  watchlist_count : Z;
  top_languages : list (hkey * Z)
}.

(** [generate_summary(trending, search_results, watchlist)] *)
Definition generate_summary (trending search_results watchlist : list repo) : py summary :=
  let all_projects := (trending ++ search_results ++ watchlist)%list in
  match py_sum 0 (map (fun p => py_get p "stars" (JInt 0)) all_projects) with
  | None => Raise
  | Some stars =>
      match py_sum 0 (map (fun p => py_get p "forks" (JInt 0)) all_projects) with
      | None => Raise
      | Some forks =>
          match count_languages [] all_projects with
          | None => Raise
          | Some languages =>
              Ret {| total_projects := Z.of_nat (length all_projects);
                     total_stars := stars;
                     total_forks := forks;
                     trending_count := Z.of_nat (length trending);
                     search_count := Z.of_nat (length search_results);
                     watchlist_count := Z.of_nat (length watchlist);
                     top_languages := take 5 (sort_by_key_desc snd languages) |}
          end
      end
  end.

(** The number of projects whose language key is [k]. *)
Definition lang_count (k : hkey) (ps : list repo) : Z :=
  Z.of_nat (length (filter (fun p => lang_key p = Some k) ps)).

(** ** Report dates: [str(date)], [datetime.strptime(..., "%Y-%m-%d")] *)

Module PyDate.
Local Open Scope list_scope.
Local Open Scope Z_scope.

Record date := { year : Z; month : Z; day : Z }.

Definition is_leap (y : Z) : bool :=
  (Z.eqb (y mod 4) 0 && negb (Z.eqb (y mod 100) 0)) || Z.eqb (y mod 400) 0.

Definition days_in_month (y m : Z) : Z :=
  if Z.eqb m 2 then (if is_leap y then 29 else 28)
  else if Z.eqb m 4 || Z.eqb m 6 || Z.eqb m 9 || Z.eqb m 11 then 30
  else 31.

(** The checks of [date(year, month, day)], which raises [ValueError]
    outside them. *)
Definition valid_date (y m d : Z) : bool :=
  (1 <=? y) && (y <=? 9999) && (1 <=? m) && (m <=? 12) && (1 <=? d) && (d <=? days_in_month y m).

Definition digit_char (n : Z) : Ascii.ascii := Ascii.ascii_of_nat (48 + Z.to_nat n).

(** ["%02d" % n] for [0 <= n < 100] *)
Definition pad2 (n : Z) : list Ascii.ascii := [digit_char (n / 10); digit_char (n mod 10)].

(** ["%04d" % n] for [0 <= n < 10000] *)
Definition pad4 (n : Z) : list Ascii.ascii :=
  [digit_char (n / 1000); digit_char (n / 100 mod 10); digit_char (n / 10 mod 10);
   digit_char (n mod 10)].

(** [str(d)], that is [d.isoformat()]: ["%04d-%02d-%02d"] of a valid date. *)
Definition isoformat (d : date) : string :=
  String.string_of_list_ascii (pad4 (year d) ++ "-"%char :: pad2 (month d) ++ "-"%char :: pad2 (day d)).

(** [\d] on ASCII text. *)
Definition digit_val (c : Ascii.ascii) : option Z :=
  if PyFloat.is_digit c then Some (PyFloat.digit_value c) else None.

Definition digit_in (lo hi : Z) (c : Ascii.ascii) : option Z :=
  match digit_val c with Some v => if (lo <=? v) && (v <=? hi) then Some v else None | None => None end.

(** [(?P<Y>\d\d\d\d)] *)
Definition re_Y (l : list Ascii.ascii) : option (Z * list Ascii.ascii) :=
  match l with
  | a :: b :: c :: d :: r =>
      match digit_val a, digit_val b, digit_val c, digit_val d with
      | Some a, Some b, Some c, Some d => Some (1000 * a + 100 * b + 10 * c + d, r)
      | _, _, _, _ => None
      end
  | _ => None
  end.

(** [(?P<m>1[0-2]|0[1-9]|[1-9])]: the value and the rest after each
    alternative that matches, in the order the regex tries them. *)
Definition re_m (l : list Ascii.ascii) : list (Z * list Ascii.ascii) :=
  (match l with
   | a :: b :: r => if Ascii.eqb a "1"%char then
                      match digit_in 0 2 b with Some v => [(10 + v, r)] | None => [] end
                    else []
   | _ => [] end) ++
  (match l with
   | a :: b :: r => if Ascii.eqb a "0"%char then
                      match digit_in 1 9 b with Some v => [(v, r)] | None => [] end
                    else []
   | _ => [] end) ++
  (match l with
   | a :: r => match digit_in 1 9 a with Some v => [(v, r)] | None => [] end
   | _ => [] end).

(** [(?P<d>3[01]|[12]\d|0[1-9]|[1-9]| [1-9])], with [int(" 5") = 5]. *)
Definition re_d (l : list Ascii.ascii) : list (Z * list Ascii.ascii) :=
  (match l with
   | a :: b :: r => if Ascii.eqb a "3"%char then
                      match digit_in 0 1 b with Some v => [(30 + v, r)] | None => [] end
                    else []
   | _ => [] end) ++
  (match l with
   | a :: b :: r => match digit_in 1 2 a, digit_val b with
                    | Some x, Some y => [(10 * x + y, r)]
                    | _, _ => []
                    end
   | _ => [] end) ++
  (match l with
   | a :: b :: r => if Ascii.eqb a "0"%char then
                      match digit_in 1 9 b with Some v => [(v, r)] | None => [] end
                    else []
   | _ => [] end) ++
  (match l with
   | a :: r => match digit_in 1 9 a with Some v => [(v, r)] | None => [] end
   | _ => [] end) ++
  (match l with
   | a :: b :: r => if Ascii.eqb a " "%char then
                      match digit_in 1 9 b with Some v => [(v, r)] | None => [] end
                    else []
   | _ => [] end).

Fixpoint first_some {A B : Type} (f : A -> option B) (l : list A) : option B :=
  match l with [] => None | x :: l' => match f x with Some b => Some b | None => first_some f l' end end.

(** [-(?P<m>...)-(?P<d>...)] after the year: the first way to match, by
    backtracking over the alternatives of [m] in order. *)
Definition re_md (l : list Ascii.ascii) : option (Z * Z * list Ascii.ascii) :=
  match l with
  | c :: r =>
      if Ascii.eqb c "-"%char then
        first_some (fun '(m, r1) =>
          match r1 with
          | c1 :: r2 =>
              if Ascii.eqb c1 "-"%char then
                first_some (fun '(d, r3) => Some (m, d, r3)) (re_d r2)
              else None
          | [] => None
          end) (re_m r)
      else None
  | [] => None
  end.

(** [re.match] of the pattern of ["%Y-%m-%d"]. *)
Definition re_match (l : list Ascii.ascii) : option (Z * Z * Z * list Ascii.ascii) :=
  match re_Y l with
  | Some (y, r) => match re_md r with Some (m, d, rest) => Some (y, m, d, rest) | None => None end
  | None => None
  end.

(** [datetime.strptime(s, "%Y-%m-%d").date()]; [None] is the [ValueError]
    of no match, of unconverted data left, or of an invalid date. *)
Definition strptime_date (s : string) : option date :=
  match re_match (String.list_ascii_of_string s) with
  | Some (y, m, d, []) => if valid_date y m d then Some {| year := y; month := m; day := d |} else None
  | _ => None
  end.

(** [get_daily_report_path(report_date)]: the file name in [DAILY_DIR]. *)
Definition report_name (d : date) : string := isoformat d +:+ ".md".

(** [save_daily_report(content, report_date)] on the files of [DAILY_DIR]. *)
Definition save_daily_report (content : string) (d : date) (files : gmap string string)
  : gmap string string * string :=
  (<[report_name d := content]> files, report_name d).

End PyDate.

(** ** main.py: the fetch stage of [run_tracker] *)

Section RunTracker.
Variable S : Type.
Variable fetch_trending : S -> string -> S * list repo.
Variable search_repositories : S -> string -> Z -> S * py (list repo).
Variable clock : S -> S * string.
Variable get_repository : S -> string -> S * py (option repo).
Variable get_recent_commits : S -> string -> S * py (list jvalue).
Variable get_contributors : S -> string -> S * py (list jvalue).
Variable now_iso : S -> string.
(** [config.WATCHLIST] *)
Variable WATCHLIST : list string.

(** The three adapter calls of [run_tracker], in order, over one client
    and clock: [trending.fetch_ai_trending()],
    [search.search_ai_projects(client, per_keyword=10)] and
    [watchlist.fetch_watchlist(client)]. [None] is an exception escaping an
    adapter (a [TypeError] in [fetch_ai_trending]'s filter or in
    [search_ai_projects]'s sort); [fetch_watchlist] catches everything.
    Their three lists are what the report and the persistence loop
    receive. *)
Definition run_tracker_sources (s : S) : S * option (list repo * list repo * list repo) :=
  match fetch_ai_trending fetch_trending s with
  | (s1, None) => (s1, None)
  | (s1, Some trending_projects) =>
      match search_ai_projects search_repositories clock 10 s1 AI_KEYWORDS with
      | (s2, Raise) => (s2, None)
      | (s2, Ret search_projects) =>
          let '(s3, watchlist_projects) :=
            fetch_watchlist get_repository get_recent_commits get_contributors now_iso s2 WATCHLIST in
          (s3, Some (trending_projects, search_projects, watchlist_projects))
      end
  end.

End RunTracker.

Arguments run_tracker_sources {S} _ _ _ _ _ _ _ _ _.

(** ** Inputs of the examples below *)

(** The record of one watchlist identity's outcome, if it succeeded. *)
Definition item_record (o : string * py (option repo)) : option repo :=
  match o.2 with Ret (Some r) => Some r | _ => None end.

(** A search backend answering two keyword queries, one hit shared. *)
Definition search_example (u : unit) (query : string) (per_page : Z) : unit * py (list repo) :=
  if String.eqb query "llm language:python OR language:typescript" then
    (u, Ret [ {[ "full_name" := JStr "a/x"; "stars" := JInt 5 ]};
              {[ "full_name" := JStr "b/y"; "stars" := JInt 9 ]} ])
  else if String.eqb query "agent language:python OR language:typescript" then
    (u, Ret [ {[ "full_name" := JStr "a/x"; "stars" := JInt 5 ]};
              {[ "full_name" := JStr "c/z"; "stars" := JInt 7 ]} ])
  else (u, Raise).

Definition clock_example (u : unit) : unit * string := (u, "2026-01-01T00:00:00").

Definition search_example_out : list repo :=
  match (search_ai_projects search_example clock_example 10 tt ["llm"; "agent"; "rag"]).2 with
  | Ret o => o
  | Raise => []
  end.

(** Three trending records: a false positive, a non-match, a match. *)
Definition filter_example : list repo :=
  [ {[ "name" := JStr "tailwind"; "description" := JStr "CSS framework" ]};
    {[ "name" := JStr "web-server"; "description" := JStr "An HTTP server" ]};
    {[ "name" := JStr "agents"; "description" := JStr "Built on LangChain" ]} ].

Definition filter_example_out : list repo :=
  match _filter_ai_projects filter_example with Some o => o | None => [] end.

Definition fetch_trending_example (u : unit) (lang : string) : unit * list repo :=
  (u, if String.eqb lang "Python" then filter_example else []).

(** A trending page with a linked article and one without a link. *)
Definition trending_example_page : list repo :=
  _parse_trending_page "2026-01-01T00:00:00"
    [ {| link_href := Some "/owner/repo"; description_text := "A tool";
         language_text := Some "Python"; stars_elem_text := Some "1,234" |};
      {| link_href := None; description_text := ""; language_text := None;
         stars_elem_text := None |} ].

Definition trending_example_record : repo :=
  match trending_example_page with r :: _ => r | [] => ∅ end.

(** Twelve trending records without a language, two search hits. *)
Definition report_example_trending : list repo :=
  map (fun i => {[ "name" := JStr "p"; "stars" := JInt (Z.of_nat i) ]}) (seq 0 12).

Definition report_example_search : list repo :=
  [ {[ "name" := JStr "q"; "stars" := JInt 50; "language" := JNull ]};
    {[ "name" := JStr "r"; "stars" := JInt 7; "language" := JStr "Rust" ]} ].

Definition report_example_top : list repo :=
  match top_projects report_example_trending report_example_search [] with
  | Ret t => t
  | Raise => []
  end.

Definition report_example_summary : summary :=
  match generate_summary report_example_trending report_example_search [] with
  | Ret sm => sm
  | Raise => {| total_projects := 0; total_stars := 0; total_forks := 0; trending_count := 0;
                search_count := 0; watchlist_count := 0; top_languages := [] |}
  end.

(** An empty repository cache with a one-hour TTL, in microseconds. *)
Definition repo_client_example : RepoClient.client :=
  {| RepoClient.cache := ∅; RepoClient.cache_ttl := 3600000000 |}.

Definition repo_example : repo := {[ "full_name" := JStr "a/b"; "stars" := JInt 2 ]}.

Definition repo_lang_example : repo :=
  {[ "full_name" := JStr "a/b"; "stars" := JInt 2; "language" := JStr "Python" ]}.

(** A stored table and two runs over it. *)
Definition store_example : store :=
  {[ "a/b" := {[ "full_name" := JStr "a/b"; "stars" := JInt 1 ]};
     "x/y" := {[ "full_name" := JStr "x/y"; "stars" := JInt 9 ]} ]}.

Definition run_example_pre : list repo := [ {[ "full_name" := JStr "a/b"; "stars" := JInt 1 ]} ].

Definition run_example_post : list repo :=
  [ {[ "full_name" := JStr "c/d" ]}; {[ "full_name" := JStr "" ]} ].

(** A cycle whose trending and search passes both return ["a/x"]; the
    watchlist returns ["b/y"], which the search pass also returns. *)
Definition cycle_trending (u : unit) (lang : string) : unit * list repo :=
  (u, if String.eqb lang "Python" then
        [ {[ "full_name" := JStr "a/x"; "name" := JStr "agents";
             "description" := JStr "LLM agents"; "stars" := JInt 3 ]} ]
      else []).

Definition cycle_search (u : unit) (query : string) (per_page : Z) : unit * py (list repo) :=
  if String.eqb query "llm language:python OR language:typescript" then
    (u, Ret [ {[ "full_name" := JStr "a/x"; "stars" := JInt 5 ]};
              {[ "full_name" := JStr "b/y"; "stars" := JInt 9 ]} ])
  else (u, Ret []).

Definition cycle_watch_repos : gmap string repo :=
  {[ "b/y" := {[ "full_name" := JStr "b/y"; "stars" := JInt 9 ]} ]}.

Definition cycle_sources : unit * option (list repo * list repo * list repo) :=
  run_tracker_sources cycle_trending cycle_search clock_example
    (table_get_repository cycle_watch_repos []) no_list no_list fixed_clock ["b/y"] tt.

Definition cycle_trending_out : list repo :=
  match cycle_sources.2 with Some (t, _, _) => t | None => [] end.

Definition cycle_search_out : list repo :=
  match cycle_sources.2 with Some (_, sp, _) => sp | None => [] end.

Definition cycle_watch_out : list repo :=
  match cycle_sources.2 with Some (_, _, w) => w | None => [] end.

Definition cycle_store : store :=
  (save_all "2026-01-01" ∅ (all_projects cycle_trending_out cycle_search_out cycle_watch_out)).1.1.

(** Two watched projects that both gained stars, the second more. *)
Definition sort_example_repos : gmap string repo :=
  {[ "a/b" := {[ "full_name" := JStr "a/b"; "stars" := JInt 150 ]};
     "c/d" := {[ "full_name" := JStr "c/d"; "stars" := JInt 300 ]} ]}.

Definition sort_example_prev : gmap string repo :=
  {[ "a/b" := {[ "full_name" := JStr "a/b"; "stars" := JInt 100 ]};
     "c/d" := {[ "full_name" := JStr "c/d"; "stars" := JInt 100 ]} ]}.

Definition sort_example_out : list repo :=
  match (get_watchlist_changes (table_get_repository sort_example_repos []) no_list no_list
           fixed_clock tt ["a/b"; "c/d"] sort_example_prev).2 with
  | Some o => o
  | None => []
  end.

Definition delta_example_repos (stars : Z) : gmap string repo :=
  {[ "a/b" := {[ "full_name" := JStr "a/b"; "stars" := JInt stars ]} ]}.

Definition delta_example_prev : gmap string repo :=
  {[ "a/b" := {[ "full_name" := JStr "a/b"; "stars" := JInt 100 ]} ]}.

Definition inf_article : raw_article :=
  {| link_href := Some "/o/agent"; description_text := "LLM agent";
     language_text := Some "Python"; stars_elem_text := Some "inf" |}.

Definition garbled_article : raw_article :=
  {| link_href := Some "/o/agent"; description_text := "LLM agent";
     language_text := Some "Python"; stars_elem_text := Some "n/a" |}.

(* ================================================================== *)
(** * Properties *)
(* ================================================================== *)

Example _update_test :
  update_project "2026-10-16" "a/b" {[ "stars" := JInt 5 ]}
    {[ "a/b" := {[ "stars" := JInt 3 ]} ]}
  = Some {[ "a/b" := <["stars" := JInt 5]> {[ "history" := JList
       [JObj [("date", JStr "2026-10-16"); ("stars", JInt 3); ("forks", JInt 0)]] ]} ]}.
Proof. vm_compute. reflexivity. Qed.

(** ** The project table *)

Lemma update_project_present today full_name data existing l (projects : store) :
  projects !! full_name = Some existing ->
  stored_history existing = Some l ->
  update_project today full_name data projects =
    Some (<[full_name := data ∪ <["history" := JList (l ++ [history_entry today existing])]> existing]> projects).
Proof. intros Hp Hh. unfold update_project. by rewrite Hp, Hh. Qed.

Lemma stored_history_merge (data existing : repo) l' :
  data !! "history" = None ->
  stored_history (data ∪ <["history" := JList l']> existing) = Some l'.
Proof.
  intros Hd. unfold stored_history.
  rewrite lookup_union, Hd, lookup_insert_eq. reflexivity.
Qed.

(** C2: on an identity already in the table, one [update_project] call
    appends exactly one history entry, dated today and holding the stars
    and forks of the stored record (not those of [data]); calling it [n]
    times with the same snapshot grows the history by exactly [n]. The
    snapshot is one the adapters produce: it has no ["history"] key. *)
Theorem update_project_history_append (today full_name : string) (data existing : repo)
    (projects : store) (l : list jvalue) :
  projects !! full_name = Some existing ->
  stored_history existing = Some l ->
  data !! "history" = None ->
  (exists projects' r,
      update_project today full_name data projects = Some projects' /\
      projects' !! full_name = Some r /\
      r !! "history" = Some (JList (l ++ [JObj [("date", JStr today);
                                               ("stars", py_get existing "stars" (JInt 0));
                                               ("forks", py_get existing "forks" (JInt 0))]]))) /\
  (forall n, exists projects' r l',
      upsert_times today full_name data n projects = Some projects' /\
      projects' !! full_name = Some r /\
      stored_history r = Some l' /\ length l' = length l + n).
Proof.
  intros Hp Hh Hd. split.
  - eexists _, _. split; [by eapply update_project_present|].
    rewrite lookup_insert_eq. split; [reflexivity|].
    by rewrite lookup_union, Hd, lookup_insert_eq.
  - induction n as [|n IH].
    + exists projects, existing, l. simpl. repeat split; auto.
    + destruct IH as (p & r & l' & Hit & Hr & Hl' & Hlen).
      unfold upsert_times in *. simpl. rewrite Hit. simpl.
      erewrite update_project_present by eauto.
      eexists _, _, _. split; [reflexivity|].
      rewrite lookup_insert_eq. split; [reflexivity|].
      split; [by apply stored_history_merge|].
      rewrite length_app, Hlen. simpl. lia.
Qed.

Lemma update_project_history_append_witness :
  let existing : repo := {[ "stars" := JInt 100; "forks" := JInt 7 ]} in
  let data : repo := {[ "stars" := JInt 150 ]} in
  let projects : store := {[ "a/b" := existing ]} in
  projects !! "a/b" = Some existing /\
  stored_history existing = Some [] /\
  data !! "history" = None /\
  (exists projects' r,
      update_project "2026-10-16" "a/b" data projects = Some projects' /\
      projects' !! "a/b" = Some r /\
      r !! "history" = Some (JList ([] ++ [JObj [("date", JStr "2026-10-16");
          ("stars", py_get existing "stars" (JInt 0));
          ("forks", py_get existing "forks" (JInt 0))]]))).
Proof.
  intros existing data projects.
  assert (H1 : projects !! "a/b" = Some existing) by (vm_compute; reflexivity).
  assert (H2 : stored_history existing = Some []) by (vm_compute; reflexivity).
  assert (H3 : data !! "history" = None) by (vm_compute; reflexivity).
  exact (conj H1 (conj H2 (conj H3
    (proj1 (update_project_history_append "2026-10-16" "a/b" data existing projects [] H1 H2 H3))))).
Defined.

(** C5 fails as stated: a [None] (JSON [null]) value in the new snapshot,
    such as the ["description"] that [_extract_repo_data] emits for a
    repository without one, overwrites the stored non-null value. *)
Lemma update_project_null_overwrites :
  let stored : store := {[ "a/b" := {[ "description" := JStr "LLM toolkit" ]} ]} in
  let data : repo := {[ "description" := JNull ]} in
  ((update_project "2026-10-16" "a/b" data stored ≫= (fun p => p !! "a/b"))
     ≫= (fun r => r !! "description")) = Some JNull.
Proof. vm_compute. reflexivity. Qed.

(** C5 (amended): when [update_project] merges a snapshot over a stored
    record, every key present in the snapshot takes the snapshot's value,
    [null] included, and every key missing from the snapshot keeps the
    stored value (["history"] gets the appended entry, see C2). *)
Theorem update_project_merge_fields (today full_name : string) (data existing : repo)
    (projects : store) (l : list jvalue) :
  projects !! full_name = Some existing ->
  stored_history existing = Some l ->
  exists projects' r,
    update_project today full_name data projects = Some projects' /\
    projects' !! full_name = Some r /\
    forall k, k <> "history" ->
      r !! k = match data !! k with Some v => Some v | None => existing !! k end.
Proof.
  intros Hp Hh. eexists _, _. split; [by eapply update_project_present|].
  rewrite lookup_insert_eq. split; [reflexivity|].
  intros k Hk. rewrite lookup_union, lookup_insert_ne by congruence.
  by destruct (data !! k), (existing !! k).
Qed.

Lemma update_project_merge_fields_witness :
  let existing : repo := {[ "description" := JStr "LLM toolkit" ]} in
  let data : repo := {[ "description" := JNull ]} in
  let projects : store := {[ "a/b" := existing ]} in
  projects !! "a/b" = Some existing /\
  stored_history existing = Some [] /\
  exists projects' r,
    update_project "2026-10-16" "a/b" data projects = Some projects' /\
    projects' !! "a/b" = Some r /\
    forall k, k <> "history" ->
      r !! k = match data !! k with Some v => Some v | None => existing !! k end.
Proof.
  intros existing data projects.
  assert (H1 : projects !! "a/b" = Some existing) by (vm_compute; reflexivity).
  assert (H2 : stored_history existing = Some []) by (vm_compute; reflexivity).
  exact (conj H1 (conj H2
    (update_project_merge_fields "2026-10-16" "a/b" data existing projects [] H1 H2))).
Defined.

(** ** The combined list of a cycle *)


(** ** Re-running a cycle *)

Lemma update_project_ok today full_name (data : repo) (projects : store) :
  store_ok projects -> data !! "history" = None ->
  exists projects', update_project today full_name data projects = Some projects' /\
    store_ok projects'.
Proof.
  intros Hok Hd. unfold update_project.
  destruct (projects !! full_name) as [existing|] eqn:He.
  - destruct (Hok _ _ He) as [l Hl]. rewrite Hl. eexists; split; [reflexivity|].
    apply map_Forall_insert_2; [|done].
    rewrite stored_history_merge by done. by eexists.
  - eexists; split; [reflexivity|].
    apply map_Forall_insert_2; [|done].
    unfold stored_history. rewrite Hd. by eexists.
Qed.

Lemma hist_len_update today full_name x (data : repo) (projects projects' : store) n :
  data !! "history" = None ->
  hist_len projects x = Some n ->
  update_project today full_name data projects = Some projects' ->
  hist_len projects' x = Some (if String.eqb full_name x then S n else n).
Proof.
  intros Hd Hx Hu. unfold hist_len in *. unfold update_project in Hu.
  destruct (projects !! full_name) as [existing|] eqn:He.
  - destruct (stored_history existing) as [l|] eqn:Hl; [|discriminate].
    injection Hu as <-. destruct (String.eqb_spec full_name x) as [<-|Hne].
    + rewrite lookup_insert_eq, stored_history_merge by done.
      rewrite He, Hl in Hx. injection Hx as <-.
      rewrite length_app. simpl. f_equal. lia.
    + by rewrite lookup_insert_ne.
  - injection Hu as <-. destruct (String.eqb_spec full_name x) as [<-|Hne].
    + rewrite He in Hx. discriminate.
    + by rewrite lookup_insert_ne.
Qed.

(** C4 fails as stated: re-running a cycle for the same date over the
    table the first run wrote appends a second, identical history entry
    for an identity the table already held; and a cycle whose combined
    list holds two records writes the whole table twice. *)
Lemma rerun_duplicates_history :
  let snap : repo := {[ "full_name" := JStr "a/b"; "stars" := JInt 10; "forks" := JInt 2 ]} in
  let s0 : store := {[ "a/b" := snap ]} in
  let e := JObj [("date", JStr "2026-10-16"); ("stars", JInt 10); ("forks", JInt 2)] in
  let run1 := save_all "2026-10-16" s0 [snap] in
  let run2 := save_all "2026-10-16" run1.1.1 [snap] in
  (run1.1.1 !! "a/b" ≫= fun r => r !! "history") = Some (JList [e]) /\
  (run2.1.1 !! "a/b" ≫= fun r => r !! "history") = Some (JList [e; e]) /\
  (save_all "2026-10-16" s0 [snap; snap]).1.2 = 2.
Proof. vm_compute. repeat split. Qed.

Lemma save_all_spec today (ps : list repo) : forall (projects : store) x n,
  store_ok projects ->
  Forall (fun r : repo => r !! "history" = None) ps ->
  x <> "" ->
  hist_len projects x = Some n ->
  exists final,
    save_all today projects ps
      = (final, length (filter (fun r => repo_full_name r <> "") ps), false) /\
    store_ok final /\
    hist_len final x = Some (n + count_identity x ps).
Proof.
  unfold count_identity.
  induction ps as [|r ps IH]; intros projects x n Hok Hps Hx Hn.
  - exists projects. simpl. rewrite Nat.add_0_r. auto.
  - inversion Hps as [|? ? Hr Hps']; subst. simpl.
    destruct (String.eqb_spec (repo_full_name r) "") as [He|Hne].
    + destruct (IH projects x n Hok Hps' Hx Hn) as (final & Hs & Hok' & Hl).
      exists final. rewrite Hs.
      rewrite (filter_cons_False (fun r => repo_full_name r <> "")) by (intros []; done).
      rewrite (filter_cons_False (fun r => repo_full_name r = x)) by congruence.
      auto.
    + destruct (update_project_ok today (repo_full_name r) r projects Hok Hr)
        as (projects' & Hu & Hok1).
      rewrite Hu.
      pose proof (hist_len_update today _ x r projects projects' n Hr Hn Hu) as Hn'.
      destruct (IH projects' x _ Hok1 Hps' Hx Hn') as (final & Hs & Hok' & Hl).
      rewrite Hs. exists final.
      rewrite (filter_cons_True (fun r => repo_full_name r <> "")) by done.
      split; [reflexivity|]. split; [done|]. rewrite Hl.
      destruct (String.eqb_spec (repo_full_name r) x) as [Heq|Hneq].
      * rewrite (filter_cons_True (fun r => repo_full_name r = x)) by done.
        simpl. f_equal. lia.
      * rewrite (filter_cons_False (fun r => repo_full_name r = x)) by done.
        reflexivity.
Qed.

(** C4 (amended): a cycle upserts the entries of its combined list one by
    one, each [update_project] rewriting the whole table (one write per
    entry with a non-empty identity, not one per cycle); an identity already
    in the table gains one history entry per occurrence in the list, so
    re-running a cycle for the same date appends further entries for it. *)
Theorem save_all_rerun_appends (today x : string) (projects : store) (ps : list repo) (n : nat) :
  store_ok projects ->
  Forall (fun r : repo => r !! "history" = None) ps ->
  x <> "" ->
  hist_len projects x = Some n ->
  exists final,
    save_all today projects ps
      = (final, length (filter (fun r => repo_full_name r <> "") ps), false) /\
    hist_len final x = Some (n + count_identity x ps) /\
    exists n', hist_len (save_all today final ps).1.1 x = Some n' /\
               n' = n + count_identity x ps + count_identity x ps.
Proof.
  intros Hok Hps Hx Hn.
  destruct (save_all_spec today ps projects x n Hok Hps Hx Hn) as (final & Hs & Hok' & Hl).
  exists final. split; [done|]. split; [done|].
  destruct (save_all_spec today ps final x _ Hok' Hps Hx Hl) as (final2 & Hs2 & _ & Hl2).
  rewrite Hs2. simpl. eexists; split; [exact Hl2|lia].
Qed.

Lemma save_all_rerun_appends_witness :
  let snap : repo := {[ "full_name" := JStr "a/b"; "stars" := JInt 10; "forks" := JInt 2 ]} in
  let s0 : store := {[ "a/b" := snap ]} in
  store_ok s0 /\ Forall (fun r : repo => r !! "history" = None) [snap] /\ "a/b" <> "" /\
  hist_len s0 "a/b" = Some 0 /\
  exists final,
    save_all "2026-10-16" s0 [snap]
      = (final, length (filter (fun r => repo_full_name r <> "") [snap]), false) /\
    hist_len final "a/b" = Some (0 + count_identity "a/b" [snap]) /\
    exists n', hist_len (save_all "2026-10-16" final [snap]).1.1 "a/b" = Some n' /\
               n' = 0 + count_identity "a/b" [snap] + count_identity "a/b" [snap].
Proof.
  intros snap s0.
  assert (H1 : store_ok s0).
  { apply map_Forall_singleton. vm_compute. eexists. reflexivity. }
  assert (H2 : Forall (fun r : repo => r !! "history" = None) [snap]).
  { constructor; [vm_compute; reflexivity | constructor]. }
  assert (H3 : "a/b" <> "") by discriminate.
  assert (H4 : hist_len s0 "a/b" = Some 0) by (vm_compute; reflexivity).
  exact (conj H1 (conj H2 (conj H3 (conj H4
    (save_all_rerun_appends "2026-10-16" "a/b" s0 [snap] 0 H1 H2 H3 H4))))).
Defined.

(** ** The provider client *)

Module ClientProps.
Import GitHubClient.
Local Open Scope Z_scope.

(** C3 fails as stated: a rate-limited search sleeps once for a fixed 60
    seconds (no growing delays) and returns the very value a successful
    search with no hits returns, so the caller cannot tell them apart. *)
Lemma rate_limited_search_is_empty_success :
  let c := {| cache := ∅; cache_ttl := 3600000000 |} in
  let throttled := search_repositories ApiRateLimited 0 1 "llm" "stars" "desc" 10 c in
  let empty := search_repositories (ApiOk []) 0 1 "llm" "stars" "desc" 10 c in
  throttled.1.1 = empty.1.1 /\ throttled.1.1 = [] /\
  filter (fun e => is_sleep e = true) throttled.2 = [Sleep 60].
Proof. vm_compute. repeat split. Qed.

(** C3 (amended): when the request of a search (not served from the
    cache) is rate-limited, [search_repositories] performs exactly one
    [time.sleep], of the fixed 60 seconds, and returns a plain list equal to
    the result of a successful search with no hits: no distinguishable
    rate-limited outcome exists. *)
Theorem search_rate_limited_outcome (now_get now_set : Z) (query sort order : string)
    (per_page : Z) (c : client) :
  (_get_cached now_get (search_key query sort order per_page) c).1 = None ->
  let throttled := search_repositories ApiRateLimited now_get now_set query sort order per_page c in
  filter (fun e => is_sleep e = true) throttled.2 = [Sleep 60] /\
  throttled.1.1 = [] /\
  throttled.1.1 = (search_repositories (ApiOk []) now_get now_set query sort order per_page c).1.1.
Proof.
  intros Hmiss. unfold search_repositories.
  destruct (_get_cached now_get (search_key query sort order per_page) c) as [[v|] c1];
    simpl in Hmiss; [discriminate|]. simpl.
  auto.
Qed.

Lemma search_rate_limited_outcome_witness :
  let c := {| cache := ∅; cache_ttl := 3600000000 |} in
  (_get_cached 0 (search_key "llm" "stars" "desc" 10) c).1 = None /\
  let throttled := search_repositories ApiRateLimited 0 1 "llm" "stars" "desc" 10 c in
  filter (fun e => is_sleep e = true) throttled.2 = [Sleep 60] /\
  throttled.1.1 = [] /\
  throttled.1.1 = (search_repositories (ApiOk []) 0 1 "llm" "stars" "desc" 10 c).1.1.
Proof.
  intros c.
  assert (H : (_get_cached 0 (search_key "llm" "stars" "desc" 10) c).1 = None)
    by (vm_compute; reflexivity).
  exact (conj H (search_rate_limited_outcome 0 1 "llm" "stars" "desc" 10 c H)).
Defined.

Lemma search_hit (api : api_result) (now now_set : Z) query sort order per_page (c : client) t v :
  cache c !! search_key query sort order per_page = Some (t, v) ->
  now - t < cache_ttl c ->
  search_repositories api now now_set query sort order per_page c = (v, c, []).
Proof.
  intros Hc Ht. unfold search_repositories, _get_cached.
  rewrite Hc. apply Z.ltb_lt in Ht. by rewrite Ht.
Qed.

Lemma get_cached_stale (now : Z) key (c : client) t v :
  cache c !! key = Some (t, v) ->
  cache_ttl c <= now - t ->
  _get_cached now key c = (None, with_cache c (delete key (cache c))).
Proof.
  intros Hc Ht. unfold _get_cached. rewrite Hc.
  destruct (Z.ltb_spec (now - t) (cache_ttl c)); [lia|done].
Qed.

(** C9 fails as stated: after expiry, when the refreshing request is
    rate-limited nothing is re-cached, and the next access is a miss again
    (a second underlying request). *)
Lemma expired_miss_repeats_after_failed_refresh :
  let key := search_key "llm" "stars" "desc" 10 in
  let c0 := {| cache := {[ key := (0, []) ]}; cache_ttl := 3600 |} in
  let first := search_repositories ApiRateLimited 3600 3601 "llm" "stars" "desc" 10 c0 in
  let second := search_repositories (ApiOk []) 3602 3603 "llm" "stars" "desc" 10 first.1.2 in
  filter (fun e => is_request e = true) first.2 = [Request key] /\
  filter (fun e => is_request e = true) second.2 = [Request key].
Proof. vm_compute. split; reflexivity. Qed.

(** C9 (amended): a search whose cache entry is strictly within TTL returns
    the cached value with no underlying request, whatever the provider
    would answer; at or after TTL the entry is evicted and the access is a
    miss making one underlying request; a successful request re-caches its
    result stamped with the time of the store, so the next access within
    TTL of that time is a hit, while a failed request (rate limit or other
    API error) caches nothing. *)
Theorem search_cache_ttl (api : api_result) (now now_set now2 now2_set : Z)
    (query sort order : string) (per_page : Z) (c : client) (t : Z) (v : list repo) :
  cache c !! search_key query sort order per_page = Some (t, v) ->
  (now - t < cache_ttl c -> forall api',
     search_repositories api' now now_set query sort order per_page c = (v, c, [])) /\
  (cache_ttl c <= now - t ->
     (_get_cached now (search_key query sort order per_page) c).1 = None /\
     cache (_get_cached now (search_key query sort order per_page) c).2
       !! search_key query sort order per_page = None /\
     let r := search_repositories api now now_set query sort order per_page c in
     filter (fun e => is_request e = true) r.2 = [Request (search_key query sort order per_page)] /\
     match api with
     | ApiOk l =>
         r.1.1 = l /\
         cache r.1.2 !! search_key query sort order per_page = Some (now_set, l) /\
         (now2 - now_set < cache_ttl c -> forall api',
            search_repositories api' now2 now2_set query sort order per_page r.1.2
              = (l, r.1.2, []))
     | _ => cache r.1.2 !! search_key query sort order per_page = None
     end).
Proof.
  intros Hc. split.
  - intros Ht api'. by eapply search_hit.
  - intros Ht. rewrite (get_cached_stale now _ c t v Hc Ht). simpl.
    split; [done|]. split; [apply lookup_delete_eq|].
    unfold search_repositories. rewrite (get_cached_stale now _ c t v Hc Ht).
    destruct api as [l| |]; simpl.
    + split; [done|]. split; [done|].
      assert (Hl : cache (_set_cached now_set (search_key query sort order per_page) l
                    (with_cache c (delete (search_key query sort order per_page) (cache c))))
                   !! search_key query sort order per_page = Some (now_set, l))
        by (simpl; apply lookup_insert_eq).
      split; [exact Hl|].
      intros Ht2 api'. apply search_hit with (t := now_set); [exact Hl|done].
    + split; [done|]. apply lookup_delete_eq.
    + split; [done|]. apply lookup_delete_eq.
Qed.

Lemma search_cache_ttl_witness :
  let key := search_key "llm" "stars" "desc" 10 in
  let c0 := {| cache := {[ key := (0, []) ]}; cache_ttl := 3600 |} in
  cache c0 !! key = Some (0, []) /\
  search_repositories (ApiOk []) 10 11 "llm" "stars" "desc" 10 c0 = ([], c0, []).
Proof.
  intros key c0.
  assert (H : cache c0 !! key = Some (0, [])) by (vm_compute; reflexivity).
  split; [exact H|].
  apply (proj1 (search_cache_ttl ApiRateLimited 10 11 20 21 "llm" "stars" "desc" 10 c0 0 [] H)).
  vm_compute. reflexivity.
Defined.

End ClientProps.

(** ** The watchlist pass *)

Section WatchlistProps.
Context {S : Type}.
Variable get_repository : S -> string -> S * py (option repo).
Variable get_recent_commits : S -> string -> S * py (list jvalue).
Variable get_contributors : S -> string -> S * py (list jvalue).
Variable now_iso : S -> string.

(** C8: [fetch_watchlist] always returns; every identity of the watchlist
    gets its own [try] block, in order, and the result is exactly the list
    of records of the identities whose block succeeded: a [None] lookup or
    an exception in one block only drops that identity. *)
Theorem fetch_watchlist_isolation (s : S) (watchlist : list string) :
  map fst (item_outcomes get_repository get_recent_commits get_contributors now_iso s watchlist)
    = watchlist /\
  (fetch_watchlist get_repository get_recent_commits get_contributors now_iso s watchlist).2
    = omap item_record
        (item_outcomes get_repository get_recent_commits get_contributors now_iso s watchlist).
Proof.
  revert s. induction watchlist as [|n ns IH]; intros s; [done|]. simpl.
  destruct (watch_item get_repository get_recent_commits get_contributors now_iso s n)
    as [s1 item] eqn:Hi.
  destruct (IH s1) as [Hn Hr].
  destruct (fetch_watchlist get_repository get_recent_commits get_contributors now_iso s1 ns)
    as [s2 results] eqn:Hf.
  simpl in *. split; [by rewrite Hn|]. subst results.
  destruct item as [[r|]|]; reflexivity.
Qed.

Lemma insert_desc_perm (x : repo) (l : list repo) : insert_desc x l ≡ₚ x :: l.
Proof.
  induction l as [|y ys IH]; simpl; [done|].
  destruct (Z.leb (delta_key x) (delta_key y)); [|done].
  rewrite IH. apply Permutation_swap.
Qed.

Lemma sort_desc_perm (l : list repo) : sort_desc l ≡ₚ l.
Proof.
  unfold sort_desc.
  assert (H : forall acc, fold_left (fun acc x => insert_desc x acc) l acc ≡ₚ l ++ acc).
  { induction l as [|x l IH]; intros acc; simpl; [done|].
    rewrite IH, insert_desc_perm. symmetry. apply Permutation_middle. }
  by rewrite H, app_nil_r.
Qed.

Lemma collect_changes_spec (previous_data : gmap string repo) (current : list repo) :
  forall changes, collect_changes previous_data current = Some changes ->
  forall r, r ∈ changes <->
    exists repo d, repo ∈ current /\ star_delta previous_data repo = Some d /\ (0 < d)%Z /\
                   r = <["stars_delta" := JInt d]> repo.
Proof.
  induction current as [|c cs IH]; intros changes Hc r; simpl in Hc.
  - injection Hc as <-. split; [intros Hr; inversion Hr|].
    intros (repo & d & Hin & _). inversion Hin.
  - destruct (star_delta previous_data c) as [d|] eqn:Hd; [|discriminate].
    destruct (collect_changes previous_data cs) as [cs'|] eqn:Hcs; [|discriminate].
    injection Hc as <-. specialize (IH cs' eq_refl r).
    destruct (Z.ltb_spec 0 d) as [Hpos|Hneg].
    + rewrite elem_of_cons, IH. split.
      * intros [->|(repo & d' & Hin & Hd' & Hp & ->)].
        -- exists c, d. repeat split; [left|done|done].
        -- exists repo, d'. repeat split; [by right|done|done].
      * intros (repo & d' & Hin & Hd' & Hp & ->).
        apply elem_of_cons in Hin as [->|Hin].
        -- left. congruence.
        -- right. by exists repo, d'.
    + rewrite IH. split.
      * intros (repo & d' & Hin & Hd' & Hp & ->). exists repo, d'.
        repeat split; [by right|done|done].
      * intros (repo & d' & Hin & Hd' & Hp & ->).
        apply elem_of_cons in Hin as [->|Hin]; [rewrite Hd in Hd'; injection Hd' as <-; lia|].
        by exists repo, d'.
Qed.

(** C7: the changes view of the watchlist pass holds a fetched record
    (tagged with its ["stars_delta"]) exactly when its delta, current stars
    minus the stars of [previous_data], is strictly positive; zero and
    negative deltas are filtered out. *)
Theorem get_watchlist_changes_positive (s : S) (watchlist : list string)
    (previous_data : gmap string repo) (changes : list repo) :
  (get_watchlist_changes get_repository get_recent_commits get_contributors now_iso
     s watchlist previous_data).2 = Some changes ->
  forall r, r ∈ changes <->
    exists repo d,
      repo ∈ (fetch_watchlist get_repository get_recent_commits get_contributors now_iso
                s watchlist).2 /\
      star_delta previous_data repo = Some d /\ (0 < d)%Z /\
      r = <["stars_delta" := JInt d]> repo.
Proof.
  unfold get_watchlist_changes.
  destruct (fetch_watchlist get_repository get_recent_commits get_contributors now_iso s watchlist)
    as [s1 current] eqn:Hf. simpl.
  destruct (collect_changes previous_data current) as [cs|] eqn:Hc; [|discriminate].
  intros Hs. injection Hs as <-. intros r.
  rewrite <- (collect_changes_spec previous_data current cs Hc r).
  apply elem_of_Permutation_proper. apply sort_desc_perm.
Qed.

End WatchlistProps.

Lemma get_watchlist_changes_positive_witness :
  (get_watchlist_changes (table_get_repository (delta_example_repos 150) []) no_list no_list
     fixed_clock tt ["a/b"] delta_example_prev).2
    = Some (match (fetch_watchlist (table_get_repository (delta_example_repos 150) []) no_list
                     no_list fixed_clock tt ["a/b"]).2 with
            | [r] => [<["stars_delta" := JInt 50]> r] | _ => [] end) /\
  forall r, r ∈ (match (fetch_watchlist (table_get_repository (delta_example_repos 150) []) no_list
                     no_list fixed_clock tt ["a/b"]).2 with
            | [r] => [<["stars_delta" := JInt 50]> r] | _ => [] end) <->
    exists repo d,
      repo ∈ (fetch_watchlist (table_get_repository (delta_example_repos 150) []) no_list no_list
                fixed_clock tt ["a/b"]).2 /\
      star_delta delta_example_prev repo = Some d /\ (0 < d)%Z /\
      r = <["stars_delta" := JInt d]> repo.
Proof.
  assert (H : (get_watchlist_changes (table_get_repository (delta_example_repos 150) []) no_list
     no_list fixed_clock tt ["a/b"] delta_example_prev).2
    = Some (match (fetch_watchlist (table_get_repository (delta_example_repos 150) []) no_list
                     no_list fixed_clock tt ["a/b"]).2 with
            | [r] => [<["stars_delta" := JInt 50]> r] | _ => [] end))
    by (vm_compute; reflexivity).
  exact (conj H (get_watchlist_changes_positive _ _ _ _ tt ["a/b"] delta_example_prev _ H)).
Defined.

(** The delta cases of the spec: 100 -> 150 surfaces a delta of 50,
    100 -> 100 and 100 -> 90 surface nothing. *)
Example watchlist_delta_cases :
  (match (get_watchlist_changes (table_get_repository (delta_example_repos 150) []) no_list no_list
          fixed_clock tt ["a/b"] delta_example_prev).2 with
   | Some [r] => r !! "stars_delta" | _ => None end) = Some (JInt 50) /\
  (get_watchlist_changes (table_get_repository (delta_example_repos 100) []) no_list no_list
     fixed_clock tt ["a/b"] delta_example_prev).2 = Some [] /\
  (get_watchlist_changes (table_get_repository (delta_example_repos 90) []) no_list no_list
     fixed_clock tt ["a/b"] delta_example_prev).2 = Some [].
Proof. vm_compute. repeat split. Qed.

(** The isolation case of the spec: five identities, one of which is not
    found and one of which raises, still yield the other records. *)
Example watchlist_partial_failure :
  let repos : gmap string repo :=
    {[ "o/a" := {[ "full_name" := JStr "o/a" ]}; "o/b" := {[ "full_name" := JStr "o/b" ]};
       "o/c" := {[ "full_name" := JStr "o/c" ]}; "o/d" := {[ "full_name" := JStr "o/d" ]};
       "o/e" := {[ "full_name" := JStr "o/e" ]} ]} in
  length (fetch_watchlist (table_get_repository (delete "o/c" repos) []) no_list no_list
            fixed_clock tt ["o/a"; "o/b"; "o/c"; "o/d"; "o/e"]).2 = 4 /\
  length (fetch_watchlist (table_get_repository repos ["o/b"]) no_list no_list
            fixed_clock tt ["o/a"; "o/b"; "o/c"; "o/d"; "o/e"]).2 = 4.
Proof. vm_compute. split; reflexivity. Qed.

(** ** Star counts of the trending page *)

(** C6 (code_bug): ["1,234"] parses to 1234, but ["1.2k"], the second
    form the docstring names, becomes ["1.2000"] after the ["k" -> "000"]
    rewrite and parses to 1, not 1200. *)
Theorem parse_star_count_k_suffix :
  _parse_star_count "1,234" = Ret 1234%Z /\
  clean_star_text "1.2k" = "1.2000" /\
  _parse_star_count "1.2k" = Ret 1%Z /\
  _parse_star_count "12k" = Ret 12000%Z.
Proof. vm_compute. repeat split. Qed.

(** Text that [float()] rejects is counted as 0. *)
Lemma parse_star_count_unparsable (text : string) :
  PyFloat.py_float (clean_star_text text) = None -> _parse_star_count text = Ret 0%Z.
Proof. intros H. unfold _parse_star_count. by rewrite H. Qed.

(** C10 (code_bug): [_parse_star_count] is not total: on ["inf"] (also
    ["infinity"], ["1e309"]) [float()] succeeds and [int()] raises
    [OverflowError], which [except ValueError] does not catch; the listing
    item is then dropped by [_parse_trending_page], while text [float()]
    rejects (["n/a"]) keeps its item with 0 stars. *)
Theorem parse_star_count_overflow :
  _parse_star_count "inf" = Raise /\
  _parse_star_count "1e309" = Raise /\
  _parse_trending_page "2026-10-16T00:00:00" [inf_article] = [] /\
  _parse_star_count "n/a" = Ret 0%Z /\
  length (_parse_trending_page "2026-10-16T00:00:00" [garbled_article]) = 1%nat.
Proof. vm_compute. repeat split. Qed.

(** ** Sorting by a numeric key *)

Section KeySortProps.
Context {A : Type}.
Variable key : A -> Z.

Lemma insert_by_key_perm (x : A) (l : list A) : insert_by_key key x l ≡ₚ x :: l.
Proof.
  induction l as [|y ys IH]; simpl; [done|].
  destruct (Z.leb (key x) (key y)); [|done].
  rewrite IH. apply Permutation_swap.
Qed.

Lemma sort_by_key_desc_perm (l : list A) : sort_by_key_desc key l ≡ₚ l.
Proof.
  unfold sort_by_key_desc.
  assert (H : forall acc, fold_left (fun acc x => insert_by_key key x acc) l acc ≡ₚ l ++ acc).
  { induction l as [|x l IH]; intros acc; simpl; [done|].
    rewrite IH, insert_by_key_perm. symmetry. apply Permutation_middle. }
  by rewrite H, app_nil_r.
Qed.

Lemma insert_by_key_hd (x y : A) (l : list A) :
  HdRel (desc_by key) y l -> (desc_by key) y x -> HdRel (desc_by key) y (insert_by_key key x l).
Proof.
  intros Hh Hx. destruct l as [|z zs]; simpl; [by constructor|].
  destruct (Z.leb (key x) (key z)); constructor; [by inversion Hh|done].
Qed.

Lemma insert_by_key_sorted (x : A) (l : list A) :
  Sorted (desc_by key) l -> Sorted (desc_by key) (insert_by_key key x l).
Proof.
  induction l as [|y ys IH]; intros Hs; simpl; [by repeat constructor|].
  inversion Hs as [|? ? Hys Hhd]; subst.
  destruct (Z.leb_spec (key x) (key y)) as [Hle|Hgt].
  - constructor; [by apply IH|]. apply insert_by_key_hd; [done|]. unfold desc_by. lia.
  - constructor; [done|]. constructor. unfold desc_by. lia.
Qed.

Lemma sort_by_key_desc_sorted (l : list A) : StronglySorted (desc_by key) (sort_by_key_desc key l).
Proof.
  apply (@Sorted_StronglySorted _ (desc_by key)); [intros a b c; unfold desc_by; lia|].
  unfold sort_by_key_desc.
  assert (H : forall acc, Sorted (desc_by key) acc ->
            Sorted (desc_by key) (fold_left (fun acc x => insert_by_key key x acc) l acc)).
  { induction l as [|x l IH]; intros acc Hacc; simpl; [done|].
    apply IH. by apply insert_by_key_sorted. }
  apply H. constructor.
Qed.

End KeySortProps.

Lemma sort_by_stars_spec (l out : list repo) :
  sort_by_stars l = Ret out -> out ≡ₚ l /\ StronglySorted (desc_by stars_of) out.
Proof.
  unfold sort_by_stars. intros H.
  destruct l as [|a [|b l]].
  - injection H as <-. split; [done|constructor].
  - injection H as <-. split; [done|]. repeat constructor.
  - destruct (forallb _ _); [|discriminate]. injection H as <-.
    split; [apply sort_by_key_desc_perm|apply sort_by_key_desc_sorted].
Qed.

(** ** The search pass *)

Section SearchProps.
Context {S : Type}.
Variable search_repositories : S -> string -> Z -> S * py (list repo).
Variable clock : S -> S * string.
Variable keywords : list string.

Lemma full_name_key_tagged (r : repo) (now kw : string) :
  full_name_key (<["fetched_at" := JStr now]> (<["source_keyword" := JStr kw]>
                   (<["source" := JStr "search"]> r))) = full_name_key r.
Proof. unfold full_name_key, py_get. by rewrite !lookup_insert_ne. Qed.

Lemma tag_results_inv (kw : string) (results : list repo) :
  kw ∈ keywords -> forall s seen all_results,
  search_inv keywords seen all_results ->
  search_inv keywords (tag_results clock kw s seen all_results results).1.1.2
             (tag_results clock kw s seen all_results results).1.2.
Proof.
  intros Hkw. induction results as [|r rs IH]; intros s seen acc Hinv; simpl; [done|].
  destruct (full_name_key r) as [k|] eqn:Hk; [|done].
  case_decide as Hin; [by apply IH|].
  destruct (clock s) as [s1 now]. apply IH.
  destruct Hinv as (Hp & Hnd & Hf). split; [|split].
  - rewrite omap_app. simpl. rewrite full_name_key_tagged, Hk. simpl.
    rewrite <- Hp. apply Permutation_cons_append.
  - by apply NoDup_cons_2.
  - apply Forall_app_2; [done|]. constructor; [|constructor].
    rewrite full_name_key_tagged, Hk. split; [by eexists|].
    split; [by rewrite lookup_insert_ne, lookup_insert_ne, lookup_insert_eq|].
    exists kw. split; [done|]. by rewrite lookup_insert_ne, lookup_insert_eq.
Qed.

Lemma search_keywords_inv (per_keyword : Z) (ks : list string) :
  (forall k, k ∈ ks -> k ∈ keywords) -> forall s seen all_results,
  search_inv keywords seen all_results ->
  search_inv keywords (search_keywords search_repositories clock per_keyword s seen all_results ks).1.2
             (search_keywords search_repositories clock per_keyword s seen all_results ks).2.
Proof.
  induction ks as [|k ks IH]; intros Hks s seen acc Hinv; simpl; [done|].
  destruct (search_repositories s (k +:+ " language:python OR language:typescript") per_keyword)
    as [s1 [results|]].
  - pose proof (tag_results_inv k results (Hks k ltac:(by left)) s1 seen acc Hinv) as Ht.
    destruct (tag_results clock k s1 seen acc results) as [[[s2 seen'] acc'] b].
    apply IH; [intros x Hx; apply Hks; by right|done].
  - apply IH; [intros x Hx; apply Hks; by right|done].
Qed.

Lemma search_ai_projects_inv (per_keyword : Z) (s s' : S) (out : list repo) :
  search_ai_projects search_repositories clock per_keyword s keywords = (s', Ret out) ->
  exists seen all_results, search_inv keywords seen all_results /\
    sort_by_stars all_results = Ret out.
Proof.
  unfold search_ai_projects.
  pose proof (search_keywords_inv per_keyword keywords (fun k H => H) s [] []
                (conj (reflexivity _) (conj (NoDup_nil_2) (Forall_nil_2 _)))) as Hinv.
  destruct (search_keywords search_repositories clock per_keyword s [] [] keywords)
    as [[s1 seen] acc].
  intros H. injection H as _ Hs. by exists seen, acc.
Qed.

(** The search pass returns each identity at most once: the [full_name]s
    of its result are pairwise distinct (as Python set keys), and every
    record is tagged [source = "search"] with a configured keyword. *)
Theorem search_ai_projects_dedup (per_keyword : Z) (s s' : S) (out : list repo) :
  search_ai_projects search_repositories clock per_keyword s keywords = (s', Ret out) ->
  NoDup (omap full_name_key out) /\
  Forall (fun r => is_Some (full_name_key r) /\ r !! "source" = Some (JStr "search") /\
                   exists kw, kw ∈ keywords /\ r !! "source_keyword" = Some (JStr kw)) out.
Proof.
  intros H. destruct (search_ai_projects_inv per_keyword s s' out H)
    as (seen & acc & (Hp & Hnd & Hf) & Hs).
  destruct (sort_by_stars_spec acc out Hs) as [Hperm _].
  split.
  - rewrite Hperm, <- Hp. done.
  - rewrite Forall_forall in Hf |- *. intros x Hx. apply Hf. by rewrite <- Hperm.
Qed.

(** The search pass returns its records by stars, most first. *)
Theorem search_ai_projects_sorted (per_keyword : Z) (s s' : S) (out : list repo) :
  search_ai_projects search_repositories clock per_keyword s keywords = (s', Ret out) ->
  StronglySorted (desc_by stars_of) out.
Proof.
  intros H. destruct (search_ai_projects_inv per_keyword s s' out H) as (seen & acc & _ & Hs).
  by destruct (sort_by_stars_spec acc out Hs).
Qed.

End SearchProps.

Lemma search_ai_projects_dedup_witness :
  search_ai_projects search_example clock_example 10 tt ["llm"; "agent"; "rag"]
    = (tt, Ret search_example_out) /\ length search_example_out = 3 /\
  NoDup (omap full_name_key search_example_out) /\
  Forall (fun r => is_Some (full_name_key r) /\ r !! "source" = Some (JStr "search") /\
                   exists kw, kw ∈ ["llm"; "agent"; "rag"] /\ r !! "source_keyword" = Some (JStr kw))
         search_example_out.
Proof.
  assert (H : search_ai_projects search_example clock_example 10 tt ["llm"; "agent"; "rag"]
                = (tt, Ret search_example_out)) by (vm_compute; reflexivity).
  assert (Hl : length search_example_out = 3) by (vm_compute; reflexivity).
  exact (conj H (conj Hl (search_ai_projects_dedup search_example clock_example
           ["llm"; "agent"; "rag"] 10 tt tt search_example_out H))).
Defined.

Lemma search_ai_projects_sorted_witness :
  search_ai_projects search_example clock_example 10 tt ["llm"; "agent"; "rag"]
    = (tt, Ret search_example_out) /\
  map stars_of search_example_out = [9; 7; 5]%Z /\
  StronglySorted (desc_by stars_of) search_example_out.
Proof.
  assert (H : search_ai_projects search_example clock_example 10 tt ["llm"; "agent"; "rag"]
                = (tt, Ret search_example_out)) by (vm_compute; reflexivity).
  assert (Hm : map stars_of search_example_out = [9; 7; 5]%Z) by (vm_compute; reflexivity).
  exact (conj H (conj Hm (search_ai_projects_sorted search_example clock_example
           ["llm"; "agent"; "rag"] 10 tt tt search_example_out H))).
Defined.

(** ** The AI filter of the trending pages *)

Lemma list_ascii_of_string_append (a b : string) :
  String.list_ascii_of_string (a +:+ b) =
  (String.list_ascii_of_string a ++ String.list_ascii_of_string b)%list.
Proof. induction a as [|c a IH]; simpl; [done|by rewrite IH]. Qed.

Lemma starts_with_app (x a b : list Ascii.ascii) :
  PyStr.starts_with x a = true -> PyStr.starts_with x (a ++ b) = true.
Proof.
  revert a. induction x as [|c x IH]; intros [|d a] H; simpl in *; try done.
  apply andb_prop in H as [H1 H2]. by rewrite H1, IH.
Qed.

Lemma contains_app_l (x a b : list Ascii.ascii) :
  contains x a = true -> contains x (a ++ b) = true.
Proof.
  induction a as [|c a IH]; intros H.
  - destruct x; [destruct b; reflexivity|]. discriminate H.
  - simpl in H |- *. apply orb_prop in H as [H|H].
    + pose proof (starts_with_app x (c :: a) b H) as H'. simpl in H'. by rewrite H'.
    + rewrite IH; [apply orb_true_r|done].
Qed.

Lemma lower_append (a b : string) :
  String.list_ascii_of_string (PyStr.lower (a +:+ b)) =
  (String.list_ascii_of_string (PyStr.lower a) ++ String.list_ascii_of_string (PyStr.lower b))%list.
Proof.
  unfold PyStr.lower. rewrite !String.list_ascii_of_string_of_list_ascii.
  by rewrite list_ascii_of_string_append, map_app.
Qed.

(** [_filter_ai_projects] keeps, in their order, exactly the records whose
    lowered ["name description"] text contains a lowered keyword. *)
Theorem filter_ai_spec (kws : list string) (repos out : list repo) :
  filter_ai kws repos = Some out ->
  sublist out repos /\
  forall r, r ∈ repos -> exists text, ai_text r = Some text /\
    (r ∈ out <-> exists kw, kw ∈ kws /\ str_contains kw text = true).
Proof.
  revert out. induction repos as [|r rs IH]; intros out H; simpl in H.
  - injection H as <-. split; [constructor|]. intros r Hr. by apply elem_of_nil in Hr.
  - destruct (ai_text r) as [text|] eqn:Ht; [|done].
    destruct (filter_ai kws rs) as [f|] eqn:Hf; [|done].
    injection H as <-. destruct (IH f eq_refl) as [Hsub Hall].
    assert (Hiff : existsb (fun kw => str_contains kw text) kws = true <->
                   exists kw, kw ∈ kws /\ str_contains kw text = true).
    { rewrite existsb_exists. setoid_rewrite list_elem_of_In. done. }
    destruct (existsb (fun kw => str_contains kw text) kws) eqn:He.
    + split; [by apply sublist_skip|].
      intros x Hx. apply elem_of_cons in Hx as [->|Hx].
      * exists text. split; [done|]. split; [intros _; by apply Hiff|intros _; left].
      * destruct (Hall x Hx) as (t & Hxt & Hx').
        exists t. split; [done|]. rewrite elem_of_cons. split.
        { intros [->|Hin]; [|by apply Hx'].
          rewrite Ht in Hxt. injection Hxt as <-. by apply Hiff. }
        { intros Hm. right. by apply Hx'. }
    + split; [by apply sublist_cons|].
      intros x Hx. apply elem_of_cons in Hx as [->|Hx]; [|by apply Hall].
      exists text. split; [done|]. split.
      * intros Hin. destruct (Hall r (elem_of_sublist _ _ _ Hin Hsub)) as (t & Hrt & Hr').
        rewrite Ht in Hrt. injection Hrt as <-. by apply Hr'.
      * intros Hk. apply Hiff in Hk. congruence.
Qed.

(** With [config.AI_KEYWORDS], whose ["AI"] is lowered to ["ai"], every
    record whose name contains the two letters "ai" in any case (as in
    "tailwind" or "daily") passes the filter, whatever its description. *)
Theorem filter_ai_keeps_ai_names (repos out : list repo) (r : repo) (name : string) :
  _filter_ai_projects repos = Some out -> r ∈ repos ->
  py_get r "name" (JStr "") = JStr name ->
  str_contains "ai" (PyStr.lower name) = true ->
  r ∈ out.
Proof.
  intros H Hr Hn Hai. destruct (filter_ai_spec _ _ _ H) as [_ Hall].
  destruct (Hall r Hr) as (text & Ht & Hiff). apply Hiff.
  exists "ai". split; [apply list_elem_of_In; vm_compute; do 6 right; left; reflexivity|].
  unfold ai_text in Ht. rewrite Hn in Ht. simpl in Ht.
  destruct (py_str (py_get r "description" (JStr ""))) as [d|]; [|done].
  injection Ht as <-. unfold str_contains in *.
  rewrite lower_append. by apply contains_app_l.
Qed.

(** Every record [fetch_ai_trending] returns mentions a lowered keyword
    in its lowered name or description. *)
Theorem fetch_ai_trending_matches {S : Type} (fetch_trending : S -> string -> S * list repo)
    (s s' : S) (out : list repo) :
  fetch_ai_trending fetch_trending s = (s', Some out) ->
  Forall (fun r => exists text, ai_text r = Some text /\
            exists kw, kw ∈ ai_keywords /\ str_contains kw text = true) out.
Proof.
  unfold fetch_ai_trending.
  assert (Hgen : forall langs s acc,
    Forall (fun r => exists text, ai_text r = Some text /\
              exists kw, kw ∈ ai_keywords /\ str_contains kw text = true) acc ->
    fetch_ai_trending_from fetch_trending s acc langs = (s', Some out) ->
    Forall (fun r => exists text, ai_text r = Some text /\
              exists kw, kw ∈ ai_keywords /\ str_contains kw text = true) out).
  { induction langs as [|lang langs IH]; intros s0 acc Hacc H; simpl in H.
    - by injection H as _ <-.
    - destruct (fetch_trending s0 lang) as [s1 trending].
      destruct (_filter_ai_projects trending) as [ai|] eqn:Hai; [|done].
      apply (IH s1 (acc ++ ai)%list); [|done].
      apply Forall_app_2; [done|].
      destruct (filter_ai_spec _ _ _ Hai) as [Hsub Hall].
      apply Forall_forall. intros x Hx.
      destruct (Hall x (elem_of_sublist _ _ _ Hx Hsub)) as (t & Hxt & Hiff).
      exists t. split; [done|]. by apply Hiff. }
  intros H. exact (Hgen _ s [] (Forall_nil_2 _) H).
Qed.

Lemma filter_ai_spec_witness :
  filter_ai ai_keywords filter_example = Some filter_example_out /\
  length filter_example_out = 2 /\
  (sublist filter_example_out filter_example /\
   forall r, r ∈ filter_example -> exists text, ai_text r = Some text /\
     (r ∈ filter_example_out <-> exists kw, kw ∈ ai_keywords /\ str_contains kw text = true)).
Proof.
  assert (H : filter_ai ai_keywords filter_example = Some filter_example_out)
    by (vm_compute; reflexivity).
  assert (Hl : length filter_example_out = 2) by (vm_compute; reflexivity).
  exact (conj H (conj Hl (filter_ai_spec ai_keywords filter_example filter_example_out H))).
Defined.

Lemma filter_ai_keeps_ai_names_witness :
  _filter_ai_projects filter_example = Some filter_example_out /\
  py_get {[ "name" := JStr "tailwind"; "description" := JStr "CSS framework" ]} "name" (JStr "")
    = JStr "tailwind" /\
  str_contains "ai" (PyStr.lower "tailwind") = true /\
  {[ "name" := JStr "tailwind"; "description" := JStr "CSS framework" ]} ∈ filter_example_out.
Proof.
  assert (H : _filter_ai_projects filter_example = Some filter_example_out)
    by (vm_compute; reflexivity).
  assert (Hr : {[ "name" := JStr "tailwind"; "description" := JStr "CSS framework" ]}
                 ∈ filter_example) by (left).
  assert (Hn : py_get {[ "name" := JStr "tailwind"; "description" := JStr "CSS framework" ]}
                 "name" (JStr "") = JStr "tailwind") by (vm_compute; reflexivity).
  assert (Ha : str_contains "ai" (PyStr.lower "tailwind") = true) by (vm_compute; reflexivity).
  exact (conj H (conj Hn (conj Ha (filter_ai_keeps_ai_names filter_example filter_example_out
           _ "tailwind" H Hr Hn Ha)))).
Defined.

Lemma fetch_ai_trending_matches_witness :
  fetch_ai_trending fetch_trending_example tt = (tt, Some filter_example_out) /\
  Forall (fun r => exists text, ai_text r = Some text /\
            exists kw, kw ∈ ai_keywords /\ str_contains kw text = true) filter_example_out.
Proof.
  assert (H : fetch_ai_trending fetch_trending_example tt = (tt, Some filter_example_out))
    by (vm_compute; reflexivity).
  exact (conj H (fetch_ai_trending_matches fetch_trending_example tt tt filter_example_out H)).
Defined.

(** ** The records of a trending page *)

Lemma lstrip_slash_head (l : list Ascii.ascii) :
  hd_error (lstrip_slash l) <> Some "/"%char.
Proof.
  induction l as [|c l IH]; simpl; [done|].
  destruct (Ascii.eqb_spec c "/"%char); [done|].
  simpl. congruence.
Qed.

Lemma last_segment_no_slash (l acc : list Ascii.ascii) :
  "/"%char ∉ acc -> "/"%char ∉ last_segment l acc.
Proof.
  revert acc. induction l as [|c l IH]; intros acc Hacc; simpl; [done|].
  destruct (Ascii.eqb_spec c "/"%char).
  - apply IH. apply not_elem_of_nil.
  - apply IH. rewrite elem_of_app, list_elem_of_singleton. intros [H|H]; congruence.
Qed.

(** Every record [_parse_trending_page] builds is tagged ["trending"], has
    [stars_delta] equal to [stars], a [full_name] with no leading ["/"]
    and a [name] with no ["/"] at all. *)
Theorem parse_trending_page_records (fetched_at : string) (articles : list raw_article) (r : repo) :
  r ∈ _parse_trending_page fetched_at articles ->
  r !! "source" = Some (JStr "trending") /\
  r !! "stars_delta" = r !! "stars" /\ (exists stars, r !! "stars" = Some (JInt stars)) /\
  (exists fn, r !! "full_name" = Some (JStr fn) /\
     hd_error (String.list_ascii_of_string fn) <> Some "/"%char) /\
  (exists nm, r !! "name" = Some (JStr nm) /\ "/"%char ∉ String.list_ascii_of_string nm).
Proof.
  unfold _parse_trending_page. rewrite list_elem_of_omap. intros (a & _ & Ha).
  destruct (parse_article fetched_at a) as [[r'|]|] eqn:Hp; try done.
  injection Ha as ->. unfold parse_article in Hp.
  destruct (link_href a) as [href|]; [|done].
  destruct (_parse_star_count _) as [stars|]; [|done].
  injection Hp as <-.
  split; [reflexivity|]. split; [reflexivity|]. split; [by eexists|]. split.
  - eexists. split; [reflexivity|].
    rewrite String.list_ascii_of_string_of_list_ascii. apply lstrip_slash_head.
  - eexists. split; [reflexivity|].
    rewrite String.list_ascii_of_string_of_list_ascii. apply last_segment_no_slash.
    apply not_elem_of_nil.
Qed.

Lemma parse_trending_page_records_witness :
  trending_example_page = [trending_example_record] /\
  trending_example_record !! "full_name" = Some (JStr "owner/repo") /\
  (trending_example_record !! "source" = Some (JStr "trending") /\
   trending_example_record !! "stars_delta" = trending_example_record !! "stars" /\
   (exists stars, trending_example_record !! "stars" = Some (JInt stars)) /\
   (exists fn, trending_example_record !! "full_name" = Some (JStr fn) /\
      hd_error (String.list_ascii_of_string fn) <> Some "/"%char) /\
   (exists nm, trending_example_record !! "name" = Some (JStr nm) /\
      "/"%char ∉ String.list_ascii_of_string nm)).
Proof.
  assert (Hp : trending_example_page = [trending_example_record]) by (vm_compute; reflexivity).
  assert (Hf : trending_example_record !! "full_name" = Some (JStr "owner/repo"))
    by (vm_compute; reflexivity).
  assert (Hr : trending_example_record ∈ trending_example_page) by (rewrite Hp; left).
  exact (conj Hp (conj Hf (parse_trending_page_records _ _ _ Hr))).
Defined.

(** ** The top section of the daily report *)

Lemma StronglySorted_app_inv {A : Type} (R : A -> A -> Prop) (a b : list A) :
  StronglySorted R (a ++ b) ->
  StronglySorted R a /\ StronglySorted R b /\ forall x y, x ∈ a -> y ∈ b -> R x y.
Proof.
  induction a as [|x a IH]; intros H; simpl in H.
  - split; [constructor|]. split; [done|]. intros x y Hx. by apply elem_of_nil in Hx.
  - apply StronglySorted_inv in H as [H Hx].
    destruct (IH H) as (Ha & Hb & Hab). split; [|split; [done|]].
    + constructor; [done|]. apply Forall_forall. intros y Hy.
      rewrite Forall_forall in Hx. apply Hx. apply elem_of_app. by left.
    + intros x' y Hx' Hy. apply elem_of_cons in Hx' as [->|Hx'].
      * rewrite Forall_forall in Hx. apply Hx. apply elem_of_app. by right.
      * by apply Hab.
Qed.

(** The top section of [generate_daily_report] lists [min 10 n] of the
    [n] projects, by stars, most first, and no project left out of it has
    more stars than one listed. *)
Theorem top_projects_spec (trending search_results watchlist top : list repo) :
  top_projects trending search_results watchlist = Ret top ->
  length top = Nat.min 10 (length trending + length search_results + length watchlist) /\
  StronglySorted (desc_by stars_of) top /\
  exists rest, (top ++ rest ≡ₚ trending ++ search_results ++ watchlist)%list /\
    forall x y, x ∈ top -> y ∈ rest -> (stars_of y <= stars_of x)%Z.
Proof.
  unfold top_projects.
  destruct (sort_by_stars (trending ++ search_results ++ watchlist)%list) as [l|] eqn:Hs;
    [|discriminate].
  intros H. injection H as <-.
  destruct (sort_by_stars_spec _ _ Hs) as [Hp Hsorted].
  rewrite <- (take_drop 10 l) in Hsorted.
  destruct (StronglySorted_app_inv _ _ _ Hsorted) as (Ht & _ & Hlt).
  split; [|split; [done|]].
  - rewrite length_take, (Permutation_length Hp), !length_app. lia.
  - exists (drop 10 l). split; [by rewrite take_drop|]. intros x y Hx Hy. exact (Hlt x y Hx Hy).
Qed.

(** ** The summary *)

Lemma alist_get_lang_incr (k k' : hkey) (l : list (hkey * Z)) :
  alist_get k' (lang_incr k l) =
  if decide (k' = k) then Some (default 0%Z (alist_get k l) + 1)%Z else alist_get k' l.
Proof.
  induction l as [|[k0 n] l IH]; simpl;
    repeat (case_decide; simpl); subst; rewrite ?IH; try congruence;
    repeat (case_decide; simpl); subst; try congruence; done.
Qed.

Lemma keys_lang_incr (k x : hkey) (l : list (hkey * Z)) :
  x ∈ map fst (lang_incr k l) <-> x = k \/ x ∈ map fst l.
Proof.
  induction l as [|[k0 n] l IH]; simpl.
  - rewrite list_elem_of_singleton. split; [by left|]. intros [H|H]; [done|by apply elem_of_nil in H].
  - destruct (decide (k = k0)) as [->|Hne]; simpl; rewrite !elem_of_cons; [|rewrite IH]; naive_solver.
Qed.

Lemma nodup_lang_incr (k : hkey) (l : list (hkey * Z)) :
  NoDup (map fst l) -> NoDup (map fst (lang_incr k l)).
Proof.
  induction l as [|[k0 n] l IH]; simpl; intros Hnd.
  - apply NoDup_singleton.
  - apply NoDup_cons in Hnd as [Hk0 Hnd].
    destruct (decide (k = k0)) as [->|Hne]; simpl; apply NoDup_cons; split; try done.
    + rewrite keys_lang_incr. intros [->|H]; done.
    + by apply IH.
Qed.

Lemma alist_get_elem (k : hkey) (n : Z) (l : list (hkey * Z)) :
  alist_get k l = Some n -> (k, n) ∈ l.
Proof.
  induction l as [|[k0 n0] l IH]; simpl; [done|].
  case_decide as Hk; [intros H; injection H as <-; subst; left|intros H; right; by apply IH].
Qed.

Lemma elem_alist_get (k : hkey) (n : Z) (l : list (hkey * Z)) :
  NoDup (map fst l) -> (k, n) ∈ l -> alist_get k l = Some n.
Proof.
  induction l as [|[k0 n0] l IH]; simpl; intros Hnd Hin; [by apply elem_of_nil in Hin|].
  apply NoDup_cons in Hnd as [Hk0 Hnd].
  apply elem_of_cons in Hin as [Heq|Hin].
  - injection Heq as -> ->. by case_decide.
  - case_decide as Hk; [|by apply IH].
    subst. exfalso. apply Hk0. apply list_elem_of_fmap. by exists (k0, n).
Qed.

Lemma count_languages_spec (ps : list repo) :
  forall L L', count_languages L ps = Some L' -> NoDup (map fst L) ->
  NoDup (map fst L') /\
  forall k, default 0%Z (alist_get k L') = (default 0%Z (alist_get k L) + lang_count k ps)%Z.
Proof.
  induction ps as [|p ps IH]; intros L L' H Hnd; simpl in H.
  - injection H as <-. split; [done|]. intros k. unfold lang_count. simpl. lia.
  - destruct (lang_key p) as [k0|] eqn:Hp; [|done].
    destruct (IH _ _ H (nodup_lang_incr k0 L Hnd)) as [Hnd' Hc].
    split; [done|]. intros k. rewrite Hc, alist_get_lang_incr.
    unfold lang_count. rewrite filter_cons.
    destruct (decide (k = k0)) as [->|Hne].
    + rewrite decide_True by done. simpl. lia.
    + rewrite decide_False by congruence. done.
Qed.

Lemma lang_count_nonneg (k : hkey) (ps : list repo) : (0 <= lang_count k ps)%Z.
Proof. unfold lang_count. lia. Qed.

(** [generate_summary]: the project total is the sum of the three counts;
    [top_languages] holds at most five distinct languages, by count, most
    first, each with the number of projects whose [p.get("language",
    "Unknown")] is that language; no language left out has a higher count
    than one listed. *)
Theorem generate_summary_spec (trending search_results watchlist : list repo) (sm : summary) :
  generate_summary trending search_results watchlist = Ret sm ->
  let all_projects := (trending ++ search_results ++ watchlist)%list in
  total_projects sm = (trending_count sm + search_count sm + watchlist_count sm)%Z /\
  length (top_languages sm) <= 5 /\
  StronglySorted (desc_by snd) (top_languages sm) /\
  NoDup (map fst (top_languages sm)) /\
  (forall k n, (k, n) ∈ top_languages sm -> n = lang_count k all_projects) /\
  (forall k n k', (k, n) ∈ top_languages sm -> k' ∉ map fst (top_languages sm) ->
     (lang_count k' all_projects <= n)%Z).
Proof.
  unfold generate_summary.
  destruct (py_sum _ _) as [st|]; [|discriminate].
  destruct (py_sum _ _) as [fk|]; [|discriminate].
  destruct (count_languages [] _) as [L|] eqn:Hc; [|discriminate].
  intros H. injection H as <-. cbn zeta. simpl.
  destruct (count_languages_spec _ _ _ Hc (NoDup_nil_2)) as [Hnd Hcount].
  simpl in Hcount.
  pose proof (sort_by_key_desc_perm snd L) as Hperm.
  pose proof (sort_by_key_desc_sorted snd L) as Hsorted.
  set (sorted := sort_by_key_desc snd L) in *.
  rewrite <- (take_drop 5 sorted) in Hsorted.
  destruct (StronglySorted_app_inv _ _ _ Hsorted) as (Ht & _ & Hlt).
  assert (Hndt : NoDup (map fst sorted)).
  { by rewrite Hperm. }
  assert (Hin : forall k n, (k, n) ∈ sorted -> n = lang_count k (trending ++ search_results ++ watchlist)%list).
  { intros k n Hk. rewrite Hperm in Hk. specialize (Hcount k).
    rewrite (elem_alist_get _ _ _ Hnd Hk) in Hcount. simpl in Hcount. done. }
  split; [rewrite !length_app; lia|].
  split; [rewrite length_take; lia|].
  split; [done|].
  split.
  { rewrite <- (take_drop 5 sorted), map_app in Hndt. by apply NoDup_app in Hndt as [? _]. }
  split.
  { intros k n Hk. apply Hin. eapply elem_of_sublist; [exact Hk|apply sublist_take]. }
  intros k n k' Hk Hk'.
  pose proof (Hcount k') as Hc'.
  destruct (alist_get k' L) as [n'|] eqn:Hg; simpl in Hc'.
  - apply alist_get_elem in Hg. rewrite <- Hperm, <- (take_drop 5 sorted), elem_of_app in Hg.
    destruct Hg as [Hg|Hg].
    + exfalso. apply Hk'. apply list_elem_of_fmap. by exists (k', n').
    + specialize (Hlt _ _ Hk Hg). unfold desc_by in Hlt. simpl in Hlt. lia.
  - rewrite (Hin k n) by (eapply elem_of_sublist; [exact Hk|apply sublist_take]).
    pose proof (lang_count_nonneg k (trending ++ search_results ++ watchlist)%list). lia.
Qed.

Lemma top_projects_spec_witness :
  top_projects report_example_trending report_example_search [] = Ret report_example_top /\
  map stars_of report_example_top = [50; 11; 10; 9; 8; 7; 7; 6; 5; 4]%Z /\
  (length report_example_top =
     Nat.min 10 (length report_example_trending + length report_example_search + length (@nil repo)) /\
   StronglySorted (desc_by stars_of) report_example_top /\
   exists rest, (report_example_top ++ rest ≡ₚ report_example_trending ++ report_example_search ++ [])%list /\
     forall x y, x ∈ report_example_top -> y ∈ rest -> (stars_of y <= stars_of x)%Z).
Proof.
  assert (H : top_projects report_example_trending report_example_search [] = Ret report_example_top)
    by (vm_compute; reflexivity).
  assert (Hm : map stars_of report_example_top = [50; 11; 10; 9; 8; 7; 7; 6; 5; 4]%Z)
    by (vm_compute; reflexivity).
  exact (conj H (conj Hm (top_projects_spec _ _ _ _ H))).
Defined.

Lemma generate_summary_spec_witness :
  generate_summary report_example_trending report_example_search [] = Ret report_example_summary /\
  top_languages report_example_summary = [(HStr "Unknown", 12%Z); (HNull, 1%Z); (HStr "Rust", 1%Z)] /\
  (let all_projects := (report_example_trending ++ report_example_search ++ [])%list in
   total_projects report_example_summary =
     (trending_count report_example_summary + search_count report_example_summary +
      watchlist_count report_example_summary)%Z /\
   length (top_languages report_example_summary) <= 5 /\
   StronglySorted (desc_by snd) (top_languages report_example_summary) /\
   NoDup (map fst (top_languages report_example_summary)) /\
   (forall k n, (k, n) ∈ top_languages report_example_summary -> n = lang_count k all_projects) /\
   (forall k n k', (k, n) ∈ top_languages report_example_summary ->
      k' ∉ map fst (top_languages report_example_summary) ->
      (lang_count k' all_projects <= n)%Z)).
Proof.
  assert (H : generate_summary report_example_trending report_example_search []
                = Ret report_example_summary) by (vm_compute; reflexivity).
  assert (Ht : top_languages report_example_summary
                 = [(HStr "Unknown", 12%Z); (HNull, 1%Z); (HStr "Rust", 1%Z)])
    by (vm_compute; reflexivity).
  exact (conj H (conj Ht (generate_summary_spec _ _ _ _ H))).
Defined.

(** ** Report dates *)

Module PyDateProps.
Import PyDate.
Local Open Scope Z_scope.

Lemma forallb_Zrange (f : Z -> bool) (lo n : nat) :
  forallb (fun k => f (Z.of_nat k)) (seq lo n) = true ->
  forall z, Z.of_nat lo <= z < Z.of_nat (lo + n) -> f z = true.
Proof.
  intros H z Hz. rewrite forallb_forall in H. specialize (H (Z.to_nat z)).
  rewrite Z2Nat.id in H by lia. apply H. apply in_seq. lia.
Qed.

Lemma re_Y_pad4 (y : Z) (r : list Ascii.ascii) :
  0 <= y <= 9999 -> re_Y (pad4 y ++ r)%list = Some (y, r).
Proof.
  intros Hy.
  set (chk := fun y : Z => match re_Y (pad4 y) with Some (v, []) => Z.eqb v y | _ => false end).
  assert (Hc : forallb (fun k => chk (Z.of_nat k)) (seq 0 10000) = true)
    by (vm_compute; reflexivity).
  assert (E : Z.of_nat (0 + 10000) = 10000) by (vm_compute; reflexivity).
  pose proof (forallb_Zrange _ 0 10000 Hc y) as H. rewrite E in H.
  specialize (H ltac:(lia)). unfold chk in H. clear Hc E chk.
  unfold pad4 in *.
  generalize dependent (digit_char (y mod 10)). generalize dependent (digit_char (y / 10 mod 10)).
  generalize dependent (digit_char (y / 100 mod 10)). generalize dependent (digit_char (y / 1000)).
  intros a b c d H. unfold re_Y in *. simpl in *.
  destruct (digit_val a); [|done]. destruct (digit_val b); [|done].
  destruct (digit_val c); [|done]. destruct (digit_val d); [|done].
  apply Z.eqb_eq in H. by rewrite H.
Qed.

Lemma re_md_pad2 (m d : Z) :
  1 <= m <= 12 -> 1 <= d <= 31 ->
  re_md ("-"%char :: pad2 m ++ "-"%char :: pad2 d)%list = Some (m, d, []).
Proof.
  intros Hm Hd.
  set (chk := fun m d : Z =>
    match re_md ("-"%char :: pad2 m ++ "-"%char :: pad2 d)%list with
    | Some (m', d', []) => Z.eqb m' m && Z.eqb d' d
    | _ => false
    end).
  assert (Hc : forallb (fun i => forallb (fun j => chk (Z.of_nat i) (Z.of_nat j)) (seq 1 31))
                 (seq 1 12) = true) by (vm_compute; reflexivity).
  pose proof (forallb_Zrange (fun m => forallb (fun j => chk m (Z.of_nat j)) (seq 1 31))
                1 12 Hc m ltac:(lia)) as H. cbv beta in H.
  pose proof (forallb_Zrange (chk m) 1 31 H d ltac:(lia)) as H'. unfold chk in H'.
  clear Hc H chk.
  destruct (re_md _) as [[[m' d'] [|]]|]; try done.
  apply andb_prop in H' as [H1 H2]. apply Z.eqb_eq in H1, H2. by subst.
Qed.

Lemma re_md_unpadded (m d : Z) :
  1 <= m <= 12 -> 1 <= d <= 31 ->
  re_md ("-"%char :: String.list_ascii_of_string (pretty m) ++
         "-"%char :: String.list_ascii_of_string (pretty d))%list = Some (m, d, []).
Proof.
  intros Hm Hd.
  set (chk := fun m d : Z =>
    match re_md ("-"%char :: String.list_ascii_of_string (pretty m) ++
                            "-"%char :: String.list_ascii_of_string (pretty d))%list with
    | Some (m', d', []) => Z.eqb m' m && Z.eqb d' d
    | _ => false
    end).
  assert (Hc : forallb (fun i => forallb (fun j => chk (Z.of_nat i) (Z.of_nat j)) (seq 1 31))
                 (seq 1 12) = true) by (vm_compute; reflexivity).
  pose proof (forallb_Zrange (fun m => forallb (fun j => chk m (Z.of_nat j)) (seq 1 31))
                1 12 Hc m ltac:(lia)) as H. cbv beta in H.
  pose proof (forallb_Zrange (chk m) 1 31 H d ltac:(lia)) as H'. unfold chk in H'.
  clear Hc H chk.
  destruct (re_md _) as [[[m' d'] [|]]|]; try done.
  apply andb_prop in H' as [H1 H2]. apply Z.eqb_eq in H1, H2. by subst.
Qed.

Lemma valid_date_bounds (y m d : Z) :
  valid_date y m d = true -> 1 <= y <= 9999 /\ 1 <= m <= 12 /\ 1 <= d <= 31.
Proof.
  unfold valid_date, days_in_month. intros H.
  repeat (apply andb_prop in H as [H ?]). rewrite ?Z.leb_le in *.
  repeat match goal with
         | H : context [if ?b then _ else _] |- _ => destruct b
         end; lia.
Qed.


Lemma list_ascii_of_string_app (a b : string) :
  String.list_ascii_of_string (a +:+ b) =
  (String.list_ascii_of_string a ++ String.list_ascii_of_string b)%list.
Proof. induction a as [|c a IH]; simpl; [done|by rewrite IH]. Qed.

Lemma strptime_date_of (y m d : Z) :
  valid_date y m d = true ->
  (forall l, re_match l = Some (y, m, d, []) ->
   strptime_date (String.string_of_list_ascii l) = Some {| year := y; month := m; day := d |}).
Proof.
  intros Hv l Hl. unfold strptime_date.
  rewrite String.list_ascii_of_string_of_list_ascii, Hl, Hv. done.
Qed.

(** [str(d)] parses back: [datetime.strptime(str(d), "%Y-%m-%d").date()]
    is [d] for every date [d]. *)
Theorem strptime_isoformat (d : date) :
  valid_date (year d) (month d) (day d) = true -> strptime_date (isoformat d) = Some d.
Proof.
  intros Hv. destruct (valid_date_bounds _ _ _ Hv) as (Hy & Hm & Hd).
  destruct d as [y m dd]; cbn [year month day] in *.
  apply (strptime_date_of y m dd Hv). unfold re_match. cbn [year month day].
  rewrite re_Y_pad4 by lia. by rewrite re_md_pad2.
Qed.

Lemma isoformat_injective (d1 d2 : date) :
  valid_date (year d1) (month d1) (day d1) = true ->
  valid_date (year d2) (month d2) (day d2) = true ->
  isoformat d1 = isoformat d2 -> d1 = d2.
Proof.
  intros H1 H2 He. apply strptime_isoformat in H1, H2. rewrite He in H1. congruence.
Qed.

Lemma report_name_injective (d1 d2 : date) :
  valid_date (year d1) (month d1) (day d1) = true ->
  valid_date (year d2) (month d2) (day d2) = true ->
  report_name d1 = report_name d2 -> d1 = d2.
Proof.
  intros H1 H2 He. apply isoformat_injective; [done|done|].
  unfold report_name in He. apply (f_equal String.list_ascii_of_string) in He.
  rewrite !list_ascii_of_string_app in He. apply app_inv_tail in He.
  rewrite <- (String.string_of_list_ascii_of_string (isoformat d1)), He.
  apply String.string_of_list_ascii_of_string.
Qed.

(** The date argument also accepts a month and a day without their
    leading zero: [f"{y:04d}-{m}-{d}"] parses to the same date as
    [str(d)], so both name the same report file. *)
Theorem strptime_unpadded (d : date) :
  valid_date (year d) (month d) (day d) = true ->
  strptime_date (String.string_of_list_ascii (pad4 (year d)) +:+ "-" +:+ pretty (month d) +:+
                 "-" +:+ pretty (day d)) = Some d.
Proof.
  intros Hv. destruct (valid_date_bounds _ _ _ Hv) as (Hy & Hm & Hd).
  destruct d as [y m dd]; cbn [year month day] in *.
  rewrite <- (String.string_of_list_ascii_of_string (_ +:+ _)).
  apply (strptime_date_of y m dd Hv).
  rewrite !list_ascii_of_string_app, String.list_ascii_of_string_of_list_ascii.
  change (String.list_ascii_of_string "-") with ["-"%char]. cbn [app].
  unfold re_match. rewrite re_Y_pad4 by lia.
  by rewrite (re_md_unpadded m dd Hm Hd).
Qed.

(** February 29 of a year that is not a leap year is refused: the
    string has the shape of [str(d)] but [strptime] raises [ValueError]. *)
Theorem strptime_rejects_feb29 (y : Z) :
  1 <= y <= 9999 -> is_leap y = false ->
  strptime_date (isoformat {| year := y; month := 2; day := 29 |}) = None.
Proof.
  intros Hy Hl. unfold strptime_date, isoformat. cbn [year month day].
  rewrite String.list_ascii_of_string_of_list_ascii. unfold re_match.
  rewrite re_Y_pad4 by lia. rewrite re_md_pad2 by lia.
  unfold valid_date, days_in_month. rewrite Hl. simpl.
  replace (1 <=? y) with true by (symmetry; apply Z.leb_le; lia).
  replace (y <=? 9999) with true by (symmetry; apply Z.leb_le; lia). done.
Qed.

(** [save_daily_report(content, d)] writes [d]'s file and leaves the
    report of every other date as it was. *)
Theorem save_daily_report_frame (content : string) (d d' : date) (files : gmap string string) :
  valid_date (year d) (month d) (day d) = true ->
  valid_date (year d') (month d') (day d') = true -> d' <> d ->
  (save_daily_report content d files).1 !! report_name d = Some content /\
  (save_daily_report content d files).1 !! report_name d' = files !! report_name d'.
Proof.
  intros H1 H2 Hne. unfold save_daily_report. simpl. split.
  - apply lookup_insert_eq.
  - apply lookup_insert_ne. intros He. apply Hne. symmetry. by apply report_name_injective.
Qed.

End PyDateProps.

Lemma strptime_isoformat_witness :
  PyDate.valid_date 2024 2 29 = true /\
  PyDate.isoformat {| PyDate.year := 2024; PyDate.month := 2; PyDate.day := 29 |} = "2024-02-29" /\
  PyDate.strptime_date (PyDate.isoformat {| PyDate.year := 2024; PyDate.month := 2; PyDate.day := 29 |})
    = Some {| PyDate.year := 2024; PyDate.month := 2; PyDate.day := 29 |}.
Proof.
  assert (Hv : PyDate.valid_date 2024 2 29 = true) by (vm_compute; reflexivity).
  assert (Hs : PyDate.isoformat {| PyDate.year := 2024; PyDate.month := 2; PyDate.day := 29 |}
                 = "2024-02-29") by (vm_compute; reflexivity).
  exact (conj Hv (conj Hs (PyDateProps.strptime_isoformat
           {| PyDate.year := 2024; PyDate.month := 2; PyDate.day := 29 |} Hv))).
Defined.

Lemma strptime_unpadded_witness :
  PyDate.valid_date 2024 1 5 = true /\
  String.string_of_list_ascii (PyDate.pad4 2024) +:+ "-" +:+ pretty 1%Z +:+ "-" +:+ pretty 5%Z
    = "2024-1-5" /\
  PyDate.strptime_date (String.string_of_list_ascii (PyDate.pad4 2024) +:+ "-" +:+ pretty 1%Z +:+
                        "-" +:+ pretty 5%Z)
    = Some {| PyDate.year := 2024; PyDate.month := 1; PyDate.day := 5 |}.
Proof.
  assert (Hv : PyDate.valid_date 2024 1 5 = true) by (vm_compute; reflexivity).
  assert (Hs : String.string_of_list_ascii (PyDate.pad4 2024) +:+ "-" +:+ pretty 1%Z +:+ "-" +:+
               pretty 5%Z = "2024-1-5") by (vm_compute; reflexivity).
  exact (conj Hv (conj Hs (PyDateProps.strptime_unpadded
           {| PyDate.year := 2024; PyDate.month := 1; PyDate.day := 5 |} Hv))).
Defined.

Lemma strptime_rejects_feb29_witness :
  (1 <= 2023 <= 9999)%Z /\ PyDate.is_leap 2023 = false /\
  PyDate.isoformat {| PyDate.year := 2023; PyDate.month := 2; PyDate.day := 29 |} = "2023-02-29" /\
  PyDate.strptime_date (PyDate.isoformat {| PyDate.year := 2023; PyDate.month := 2; PyDate.day := 29 |})
    = None.
Proof.
  assert (Hy : (1 <= 2023 <= 9999)%Z) by lia.
  assert (Hl : PyDate.is_leap 2023 = false) by (vm_compute; reflexivity).
  assert (Hs : PyDate.isoformat {| PyDate.year := 2023; PyDate.month := 2; PyDate.day := 29 |}
                 = "2023-02-29") by (vm_compute; reflexivity).
  exact (conj Hy (conj Hl (conj Hs (PyDateProps.strptime_rejects_feb29 2023 Hy Hl)))).
Defined.

Lemma save_daily_report_frame_witness :
  let d := {| PyDate.year := 2024; PyDate.month := 1; PyDate.day := 5 |} in
  let d' := {| PyDate.year := 2024; PyDate.month := 1; PyDate.day := 6 |} in
  let files : gmap string string := {[ "2024-01-06.md" := "old" ]} in
  PyDate.valid_date 2024 1 5 = true /\ PyDate.valid_date 2024 1 6 = true /\ d' <> d /\
  ((PyDate.save_daily_report "new" d files).1 !! PyDate.report_name d = Some "new" /\
   (PyDate.save_daily_report "new" d files).1 !! PyDate.report_name d' = files !! PyDate.report_name d').
Proof.
  intros d d' files.
  assert (H1 : PyDate.valid_date 2024 1 5 = true) by (vm_compute; reflexivity).
  assert (H2 : PyDate.valid_date 2024 1 6 = true) by (vm_compute; reflexivity).
  assert (Hne : d' <> d) by (intros H; injection H; lia).
  exact (conj H1 (conj H2 (conj Hne (PyDateProps.save_daily_report_frame "new" d d' files H1 H2 Hne)))).
Defined.

(** ** [get_repository] *)

Module RepoClientProps.
Import GitHubClient RepoClient.
Local Open Scope Z_scope.

(** A [None] from [get_repository] (not found, rate-limited or another
    API error, from [get_repo] or from [get_topics]) went to the API,
    caches nothing and never sleeps: the call made only requests, among
    them [get_repo], it leaves no entry for the name, and the next call for
    the same name, at any time, requests [get_repo] again. *)
Theorem get_repository_failure_not_cached (api api' : repo_result) (t1 t1' t2 t2' : Z)
    (full_name : string) (c c1 : client) (ev : list event) :
  get_repository api t1 t1' full_name c = (None, c1, ev) ->
  cache c1 !! ("repo", full_name) = None /\
  Forall (fun e => is_request e = true) ev /\
  Request ("repo", full_name) ∈ ev /\
  Request ("repo", full_name) ∈ (get_repository api' t2 t2' full_name c1).2.
Proof.
  assert (Hreq : forall a, Forall (fun e => is_request e = true) (api_requests a full_name) /\
                           Request ("repo", full_name) ∈ api_requests a full_name).
  { intros a. split; [|destruct a; left].
    destruct a as [d|[]|[]]; simpl; try destruct (language_set d); repeat constructor. }
  assert (Hnext : forall c', cache c' !! ("repo", full_name) = None ->
            Request ("repo", full_name) ∈ (get_repository api' t2 t2' full_name c').2).
  { intros c' Hc'. unfold get_repository, _get_cached. rewrite Hc'. destruct api'; left. }
  unfold get_repository at 1, _get_cached.
  destruct (cache c !! ("repo", full_name)) as [[ct v]|] eqn:Hc.
  - destruct (Z.ltb (t1 - ct) (cache_ttl c)); [discriminate|].
    assert (Hd : cache (with_cache c (delete ("repo", full_name) (cache c))) !! ("repo", full_name)
                 = None) by (apply lookup_delete_eq).
    destruct api as [d|b|b]; intros H; [discriminate| |].
    all: injection H as <- <-; split; [done|].
    1: split; [apply (Hreq (RepoRateLimited b))|]; split; [apply (Hreq (RepoRateLimited b))|].
    2: split; [apply (Hreq (RepoError b))|]; split; [apply (Hreq (RepoError b))|].
    all: by apply Hnext.
  - destruct api as [d|b|b]; intros H; [discriminate| |].
    all: injection H as <- <-; split; [done|].
    1: split; [apply (Hreq (RepoRateLimited b))|]; split; [apply (Hreq (RepoRateLimited b))|].
    2: split; [apply (Hreq (RepoError b))|]; split; [apply (Hreq (RepoError b))|].
    all: by apply Hnext.
Qed.

(** A dict fetched from the API is served from the cache, with no
    request, by every later call for the same name made less than
    [cache_ttl] after it was stored. *)
Theorem get_repository_cache_hit (data : repo) (api' : repo_result) (t0 ts t t' : Z)
    (full_name : string) (c c1 : client) (r : option repo) (ev : list event) :
  get_repository (RepoOk data) t0 ts full_name c = (r, c1, ev) -> ev <> [] ->
  t - ts < cache_ttl c ->
  get_repository api' t t' full_name c1 = (Some data, c1, []).
Proof.
  unfold get_repository, _get_cached.
  destruct (cache c !! ("repo", full_name)) as [[ct v]|] eqn:Hc.
  - destruct (Z.ltb (t0 - ct) (cache_ttl c)).
    + intros H Hev. injection H as _ _ <-. done.
    + intros H _ Ht. injection H as _ <-. simpl. rewrite lookup_insert_eq.
      destruct (Z.ltb_spec (t - ts) (cache_ttl c)); [done|lia].
  - intros H _ Ht. injection H as _ <-. simpl. rewrite lookup_insert_eq.
    destruct (Z.ltb_spec (t - ts) (cache_ttl c)); [done|lia].
Qed.

End RepoClientProps.

(** ** The persistence loop of [run_tracker] *)

Lemma update_project_frame (today x full_name : string) (data : repo) (P P' : store) :
  update_project today full_name data P = Some P' -> x <> full_name -> P' !! x = P !! x.
Proof.
  unfold update_project. intros H Hx.
  destruct (P !! full_name) as [existing|].
  - destruct (stored_history existing); [|done].
    injection H as <-. by apply lookup_insert_ne.
  - injection H as <-. by apply lookup_insert_ne.
Qed.

Lemma update_project_fields (today full_name : string) (data : repo) (P P' : store) :
  update_project today full_name data P = Some P' ->
  exists r, P' !! full_name = Some r /\ forall k v, data !! k = Some v -> r !! k = Some v.
Proof.
  unfold update_project. intros H.
  destruct (P !! full_name) as [existing|].
  - destruct (stored_history existing); [|done].
    injection H as <-. eexists. split; [apply lookup_insert_eq|].
    intros k v Hk. by apply lookup_union_Some_l.
  - injection H as <-. eexists. split; [apply lookup_insert_eq|done].
Qed.

Lemma save_all_frame (today : string) (ps : list repo) :
  forall P P' w x, save_all today P ps = (P', w, false) ->
  Forall (fun r => repo_full_name r <> x) ps -> P' !! x = P !! x.
Proof.
  induction ps as [|r ps IH]; intros P P' w x H Hf; simpl in H.
  - by injection H as <-.
  - apply Forall_cons in Hf as [Hr Hf].
    destruct (String.eqb (repo_full_name r) ""); [by eapply IH|].
    destruct (update_project today (repo_full_name r) r P) as [P1|] eqn:Hu; [|discriminate].
    destruct (save_all today P1 ps) as [[P2 w2] f2] eqn:Hs.
    injection H as -> _ ->.
    rewrite (IH _ _ _ _ Hs Hf). apply (update_project_frame _ _ _ _ _ _ Hu). congruence.
Qed.

Lemma save_all_app (today : string) (l1 l2 : list repo) :
  forall P P' w, save_all today P (l1 ++ l2) = (P', w, false) ->
  exists P1 w1 w2, save_all today P l1 = (P1, w1, false) /\ save_all today P1 l2 = (P', w2, false).
Proof.
  induction l1 as [|r l1 IH]; intros P P' w H; simpl in H |- *.
  - by exists P, 0, w.
  - destruct (String.eqb (repo_full_name r) ""); [by apply (IH _ _ _ H)|].
    destruct (update_project today (repo_full_name r) r P) as [P1|]; [|discriminate].
    destruct (save_all today P1 (l1 ++ l2)) as [[P2 w2] f2] eqn:Hs.
    injection H as -> _ ->.
    destruct (IH _ _ _ Hs) as (P3 & w3 & w4 & H1 & H2).
    exists P3, (S w3), w4. by rewrite H1.
Qed.

Lemma update_project_keeps_present (today x full_name : string) (data : repo) (P P' : store) :
  update_project today full_name data P = Some P' -> is_Some (P !! x) -> is_Some (P' !! x).
Proof.
  intros H Hx. destruct (decide (x = full_name)) as [->|Hne].
  - destruct (update_project_fields _ _ _ _ _ H) as (rec & Hrec & _). by rewrite Hrec.
  - by rewrite (update_project_frame _ _ _ _ _ _ H Hne).
Qed.

Lemma save_all_present (today : string) (ps : list repo) :
  forall P P' w x, save_all today P ps = (P', w, false) -> is_Some (P !! x) -> is_Some (P' !! x).
Proof.
  induction ps as [|r ps IH]; intros P P' w x H Hx; simpl in H.
  - by injection H as <-.
  - destruct (String.eqb (repo_full_name r) ""); [by eapply IH|].
    destruct (update_project today (repo_full_name r) r P) as [P1|] eqn:Hu; [|discriminate].
    destruct (save_all today P1 ps) as [[P2 w2] f2] eqn:Hs.
    injection H as -> _ ->.
    apply (IH _ _ _ _ Hs). by apply (update_project_keeps_present _ _ _ _ _ _ Hu).
Qed.

(** After a run whose loop raised nothing, every non-empty identity of
    the run is in the table, and every identity not among the run's
    records keeps its stored record unchanged: nothing is deleted. *)
Theorem save_all_keeps_others (today : string) (P P' : store) (ps : list repo) (w : nat) :
  save_all today P ps = (P', w, false) ->
  (forall x, Forall (fun r => repo_full_name r <> x) ps -> P' !! x = P !! x) /\
  (forall r, r ∈ ps -> repo_full_name r <> "" -> is_Some (P' !! repo_full_name r)).
Proof.
  intros H. split; [intros x; by apply (save_all_frame _ _ _ _ _ _ H)|].
  intros r Hr Hne. apply list_elem_of_split in Hr as (pre & post & ->).
  destruct (save_all_app _ _ _ _ _ _ H) as (P1 & w1 & w2 & _ & H2).
  simpl in H2. apply String.eqb_neq in Hne. rewrite Hne in H2.
  destruct (update_project today (repo_full_name r) r P1) as [P2|] eqn:Hu; [|discriminate].
  destruct (save_all today P2 post) as [[P3 w3] f3] eqn:Hs. injection H2 as -> _ ->.
  destruct (update_project_fields _ _ _ _ _ Hu) as (rec & Hrec & _).
  apply (save_all_present _ _ _ _ _ _ Hs). by rewrite Hrec.
Qed.

(** The last record of the run with a given identity wins: every field it
    carries is stored under that identity at the end. *)
Theorem save_all_last_wins (today : string) (P P' : store) (pre post : list repo) (r : repo)
    (w : nat) :
  save_all today P (pre ++ r :: post) = (P', w, false) ->
  repo_full_name r <> "" ->
  Forall (fun q => repo_full_name q <> repo_full_name r) post ->
  exists rec, P' !! repo_full_name r = Some rec /\
    forall k v, r !! k = Some v -> rec !! k = Some v.
Proof.
  intros H Hne Hpost.
  destruct (save_all_app _ _ _ _ _ _ H) as (P1 & w1 & w2 & _ & H2).
  simpl in H2. apply String.eqb_neq in Hne. rewrite Hne in H2.
  destruct (update_project today (repo_full_name r) r P1) as [P2|] eqn:Hu; [|discriminate].
  destruct (save_all today P2 post) as [[P3 w3] f3] eqn:Hs. injection H2 as -> _ ->.
  rewrite (save_all_frame _ _ _ _ _ _ Hs Hpost).
  by apply update_project_fields in Hu.
Qed.

Lemma get_repository_failure_not_cached_witness :
  let ev := [GitHubClient.Request ("repo", "a/b"); GitHubClient.Request ("topics", "a/b")] in
  RepoClient.get_repository (RepoClient.RepoRateLimited true) 0 0 "a/b" repo_client_example
    = (None, repo_client_example, ev) /\
  (RepoClient.cache repo_client_example !! ("repo", "a/b") = None /\
   Forall (fun e => GitHubClient.is_request e = true) ev /\
   GitHubClient.Request ("repo", "a/b") ∈ ev /\
   GitHubClient.Request ("repo", "a/b") ∈
     (RepoClient.get_repository (RepoClient.RepoOk repo_example) 5 5 "a/b" repo_client_example).2).
Proof.
  intros ev.
  assert (H : RepoClient.get_repository (RepoClient.RepoRateLimited true) 0 0 "a/b"
                repo_client_example = (None, repo_client_example, ev))
    by (vm_compute; reflexivity).
  exact (conj H (RepoClientProps.get_repository_failure_not_cached _ (RepoClient.RepoOk repo_example)
           0 0 5 5 "a/b" _ _ _ H)).
Defined.

Lemma get_repository_cache_hit_witness :
  let c1 := (RepoClient.get_repository (RepoClient.RepoOk repo_lang_example) 0 1 "a/b"
               repo_client_example).1.2 in
  let ev := [GitHubClient.Request ("repo", "a/b"); GitHubClient.Request ("topics", "a/b")] in
  RepoClient.get_repository (RepoClient.RepoOk repo_lang_example) 0 1 "a/b" repo_client_example
    = (Some repo_lang_example, c1, ev) /\ ev <> [] /\
  (100 - 1 < RepoClient.cache_ttl repo_client_example)%Z /\
  RepoClient.get_repository (RepoClient.RepoError false) 100 100 "a/b" c1
    = (Some repo_lang_example, c1, []).
Proof.
  intros c1 ev.
  assert (H : RepoClient.get_repository (RepoClient.RepoOk repo_lang_example) 0 1 "a/b"
                repo_client_example = (Some repo_lang_example, c1, ev))
    by (vm_compute; reflexivity).
  assert (Hev : ev <> []) by discriminate.
  assert (Ht : (100 - 1 < RepoClient.cache_ttl repo_client_example)%Z) by (vm_compute; reflexivity).
  exact (conj H (conj Hev (conj Ht (RepoClientProps.get_repository_cache_hit repo_lang_example
           (RepoClient.RepoError false) 0 1 100 100 "a/b" _ _ _ _ H Hev Ht)))).
Defined.

Lemma save_all_keeps_others_witness :
  let res := save_all "2026-01-01" store_example (run_example_pre ++ run_example_post)%list in
  res = (res.1.1, 2, false) /\
  res.1.1 !! "x/y" = store_example !! "x/y" /\
  ((forall x, Forall (fun r => repo_full_name r <> x) (run_example_pre ++ run_example_post)%list ->
     res.1.1 !! x = store_example !! x) /\
   (forall r, r ∈ (run_example_pre ++ run_example_post)%list -> repo_full_name r <> "" ->
     is_Some (res.1.1 !! repo_full_name r))).
Proof.
  intros res.
  assert (H : res = (res.1.1, 2, false)) by (vm_compute; reflexivity).
  assert (Hx : res.1.1 !! "x/y" = store_example !! "x/y") by (vm_compute; reflexivity).
  exact (conj H (conj Hx (save_all_keeps_others _ _ _ _ _ H))).
Defined.

Lemma save_all_last_wins_witness :
  let res := save_all "2026-01-01" store_example (run_example_pre ++ repo_example :: run_example_post)%list in
  res = (res.1.1, 3, false) /\ repo_full_name repo_example <> "" /\
  Forall (fun q => repo_full_name q <> repo_full_name repo_example) run_example_post /\
  (res.1.1 !! "a/b" ≫= (fun rec => rec !! "stars")) = Some (JInt 2) /\
  (exists rec, res.1.1 !! repo_full_name repo_example = Some rec /\
    forall k v, repo_example !! k = Some v -> rec !! k = Some v).
Proof.
  intros res.
  assert (H : res = (res.1.1, 3, false)) by (vm_compute; reflexivity).
  assert (Hn : repo_full_name repo_example <> "") by (vm_compute; discriminate).
  assert (Hp : Forall (fun q => repo_full_name q <> repo_full_name repo_example) run_example_post).
  { vm_compute. repeat constructor; discriminate. }
  assert (Hs : (res.1.1 !! "a/b" ≫= (fun rec => rec !! "stars")) = Some (JInt 2))
    by (vm_compute; reflexivity).
  exact (conj H (conj Hn (conj Hp (conj Hs (save_all_last_wins _ _ _ _ _ _ _ H Hn Hp))))).
Defined.

(** ** The order of the watchlist changes *)

Lemma insert_desc_by_key (x : repo) (l : list repo) :
  insert_desc x l = insert_by_key delta_key x l.
Proof. induction l as [|y ys IH]; simpl; [done|]. by rewrite IH. Qed.

Lemma sort_desc_by_key (l : list repo) : sort_desc l = sort_by_key_desc delta_key l.
Proof.
  unfold sort_desc, sort_by_key_desc.
  assert (H : forall acc, fold_left (fun acc x => insert_desc x acc) l acc =
                          fold_left (fun acc x => insert_by_key delta_key x acc) l acc).
  { induction l as [|x l IH]; intros acc; simpl; [done|]. by rewrite insert_desc_by_key, IH. }
  apply H.
Qed.

(** [get_watchlist_changes] returns its changes by [stars_delta], the
    largest gain first. *)
Theorem get_watchlist_changes_sorted {S : Type}
    (get_repository : S -> string -> S * py (option repo))
    (get_recent_commits get_contributors : S -> string -> S * py (list jvalue))
    (now_iso : S -> string) (s : S) (watchlist : list string)
    (previous_data : gmap string repo) (out : list repo) :
  (get_watchlist_changes get_repository get_recent_commits get_contributors now_iso s watchlist
     previous_data).2 = Some out ->
  StronglySorted (desc_by delta_key) out.
Proof.
  unfold get_watchlist_changes.
  destruct (fetch_watchlist _ _ _ _ s watchlist) as [s1 current].
  simpl. destruct (collect_changes previous_data current) as [changes|]; [|discriminate].
  intros H. injection H as <-. rewrite sort_desc_by_key. apply sort_by_key_desc_sorted.
Qed.

Lemma get_watchlist_changes_sorted_witness :
  (get_watchlist_changes (table_get_repository sort_example_repos []) no_list no_list
     fixed_clock tt ["a/b"; "c/d"] sort_example_prev).2 = Some sort_example_out /\
  map delta_key sort_example_out = [200; 50]%Z /\
  StronglySorted (desc_by delta_key) sort_example_out.
Proof.
  assert (H : (get_watchlist_changes (table_get_repository sort_example_repos []) no_list no_list
     fixed_clock tt ["a/b"; "c/d"] sort_example_prev).2 = Some sort_example_out)
    by (vm_compute; reflexivity).
  assert (Hm : map delta_key sort_example_out = [200; 50]%Z) by (vm_compute; reflexivity).
  exact (conj H (conj Hm (get_watchlist_changes_sorted _ _ _ _ _ _ _ _ H))).
Defined.

(** ** No deduplication across the adapters of a cycle *)

Lemma count_identity_Forall (x : string) (l : list repo) :
  count_identity x l = 0 <-> Forall (fun q => repo_full_name q <> x) l.
Proof.
  unfold count_identity. induction l as [|a l IH]; [split; [constructor|done]|].
  rewrite filter_cons, Forall_cons. case_decide; simpl.
  - split; [discriminate|tauto].
  - rewrite IH. tauto.
Qed.

Lemma count_identity_app (x : string) (l1 l2 : list repo) :
  count_identity x (l1 ++ l2) = count_identity x l1 + count_identity x l2.
Proof. unfold count_identity. by rewrite filter_app, length_app. Qed.

Lemma count_identity_cons (x : string) (r : repo) (l : list repo) :
  repo_full_name r = x -> count_identity x (r :: l) = S (count_identity x l).
Proof. intros Hr. unfold count_identity. rewrite filter_cons. by case_decide. Qed.

(** The last record of a list carrying an identity. *)
Lemma last_occurrence (x : string) (l : list repo) :
  count_identity x l <> 0 ->
  exists pre r post, l = (pre ++ r :: post)%list /\ repo_full_name r = x /\
    Forall (fun q => repo_full_name q <> x) post.
Proof.
  induction l as [|a l IH]; intros H; [done|].
  destruct (decide (count_identity x l = 0)) as [H0|H0].
  - exists [], a, l. split; [done|]. split; [|by apply count_identity_Forall].
    unfold count_identity in H, H0. rewrite filter_cons in H. case_decide; [done|congruence].
  - destruct (IH H0) as (pre & r & post & -> & Hr & Hp). by exists (a :: pre), r, post.
Qed.

Lemma repo_full_name_key (r : repo) (x : string) :
  repo_full_name r = x -> x <> "" -> full_name_key r = Some (HStr x).
Proof.
  unfold repo_full_name, full_name_key, py_get.
  destruct (r !! "full_name") as [[]|]; intros Hr Hx; subst; simpl; congruence.
Qed.

(** Records with distinct set keys carry a non-empty identity at most once. *)
Lemma count_identity_le_1 (x : string) (l : list repo) :
  x <> "" -> NoDup (omap full_name_key l) -> count_identity x l <= 1.
Proof.
  intros Hx. induction l as [|a l IH]; intros Hnd; [cbv; lia|].
  destruct (decide (repo_full_name a = x)) as [Ha|Ha].
  - rewrite (count_identity_cons _ _ _ Ha).
    assert (H0 : count_identity x l = 0); [|lia].
    apply count_identity_Forall, Forall_forall. intros q Hq Hqx.
    simpl in Hnd. rewrite (repo_full_name_key _ _ Ha Hx) in Hnd.
    apply NoDup_cons in Hnd as [Hn _]. apply Hn, list_elem_of_omap.
    exists q. split; [done|]. by apply repo_full_name_key.
  - unfold count_identity in *. rewrite filter_cons. case_decide; [done|].
    apply IH. simpl in Hnd. destruct (full_name_key a); [|done].
    by apply NoDup_cons in Hnd as [_ Hnd].
Qed.

Lemma watch_item_source {S : Type} (gr : S -> string -> S * py (option repo))
    (grc gc : S -> string -> S * py (list jvalue)) (now_iso : S -> string)
    (s s1 : S) (full_name : string) (r : repo) :
  watch_item gr grc gc now_iso s full_name = (s1, Ret (Some r)) ->
  r !! "source" = Some (JStr "watchlist").
Proof.
  unfold watch_item.
  destruct (gr s full_name) as [s2 [[d|]|]]; [|discriminate|discriminate].
  destruct (grc s2 full_name) as [s3 [c|]]; [|discriminate].
  destruct (gc s3 full_name) as [s4 [k|]]; [|discriminate].
  intros H. injection H as _ <-.
  by rewrite lookup_insert_ne, lookup_insert_ne, lookup_insert_ne, lookup_insert_eq.
Qed.

(** Every record [fetch_watchlist] returns is tagged [source = "watchlist"]. *)
Lemma fetch_watchlist_source {S : Type} (gr : S -> string -> S * py (option repo))
    (grc gc : S -> string -> S * py (list jvalue)) (now_iso : S -> string)
    (watchlist : list string) :
  forall s, Forall (fun r => r !! "source" = Some (JStr "watchlist"))
                   (fetch_watchlist gr grc gc now_iso s watchlist).2.
Proof.
  induction watchlist as [|n rest IH]; intros s; simpl; [constructor|].
  destruct (watch_item gr grc gc now_iso s n) as [s1 item] eqn:Hw.
  pose proof (IH s1) as Hr.
  destruct (fetch_watchlist gr grc gc now_iso s1 rest) as [s2 results]. simpl in *.
  destruct item as [[r|]|]; try done.
  constructor; [by apply (watch_item_source _ _ _ _ _ _ _ _ Hw)|done].
Qed.

(** The persistence loop stores every field of the last record of an
    identity under it. *)
Lemma save_all_last_fields (today : string) (P P' : store) (pre post : list repo) (r : repo)
    (w : nat) :
  save_all today P (pre ++ r :: post) = (P', w, false) ->
  repo_full_name r <> "" ->
  Forall (fun q => repo_full_name q <> repo_full_name r) post ->
  exists rec, P' !! repo_full_name r = Some rec /\
    forall k v, r !! k = Some v -> rec !! k = Some v.
Proof.
  intros H Hne Hpost.
  destruct (save_all_app _ _ _ _ _ _ H) as (P1 & w1 & w2 & _ & H2).
  simpl in H2. apply String.eqb_neq in Hne. rewrite Hne in H2.
  destruct (update_project today (repo_full_name r) r P1) as [P2|] eqn:Hu; [|discriminate].
  destruct (save_all today P2 post) as [[P3 w3] f3] eqn:Hs. injection H2 as -> _ ->.
  rewrite (save_all_frame _ _ _ _ _ _ Hs Hpost).
  by apply update_project_fields in Hu.
Qed.


